(** * SharedWorkflowRepository and the cloud-plan REST client

    A shallow embedding of the two modules of the n8n excerpt:

    - [SharedWorkflowRepository] (the repository class over the
      [SharedWorkflow] join entity), whose methods build a request object
      and hand it to one primitive of the object-relational mapper;
    - [cloudPlans.ts], three pass-through wrappers around the [get] helper.

    The mapper and the HTTP helper are external collaborators.  The mapper
    is represented by a reference interpretation over in-memory tables
    ([find], [findOne], [exist], [em_update], [em_delete], [em_save]);
    writes that would break the key or a foreign key of the sharing table
    fail and change nothing.  The HTTP helper is an effect served by an
    arbitrary transport. *)

From Stdlib Require Import String List Bool Arith Lia.
Import ListNotations.
Open Scope string_scope.
Open Scope list_scope.

Set Implicit Arguments.

(** ** Entities *)

Definition Scope := string.

(** [Role]: a named permission level at a scope. *)
Record Role := mkRole {
  role_id : string;
  role_name : string;
  role_scope : string
}.

(** [User]: referenced by id; [hasGlobalScope] is the method of the entity
    (its body is not part of the excerpt, so the object carries it). *)
Record User := mkUser {
  user_id : string;
  isPending : bool;
  globalRole : Role;
  hasGlobalScope : Scope -> bool
}.

Record WorkflowEntity := mkWorkflow {
  workflow_id : string
}.

(** [SharedWorkflow]: one row of [shared_workflow(workflow_id, user_id, role_id)]. *)
Record SharedWorkflow := mkShared {
  workflowId : string;
  userId : string;
  roleId : string
}.

(** The tables the repository's queries can touch.  The record itself
    imposes no constraint; the writes below enforce the key
    [(workflowId, userId)] of [sharedWorkflows] and its foreign keys. *)
Record Database := mkDb {
  sharedWorkflows : list SharedWorkflow;
  users : list User;
  roles : list Role;
  workflows : list WorkflowEntity
}.

Definition with_sharedWorkflows (db : Database) (t : list SharedWorkflow) : Database :=
  {| sharedWorkflows := t; users := users db; roles := roles db; workflows := workflows db |}.

(** ** Query objects *)

(** A column condition: a plain value is an equality; [In(...)] and
    [Not(...)] are the two find operators the repository uses. *)
Inductive FindOperator :=
| OpEqual (v : string)
| OpIn (vs : list string)
| OpNot (v : string).

(** Condition on the [user] relation: nested properties ([{ id: ... }]),
    an entity object, or a key that is present with the value [undefined]
    (an optional argument that was not supplied). *)
Inductive UserWhere :=
| UserProps (id : option FindOperator)
| UserEntity (u : User)
| UserUndefined.

(** Condition on the [role] relation: nested properties
    ([{ name: ..., scope: ... }]) or a find operator on the join column. *)
Inductive RoleWhere :=
| RoleProps (name scope : option FindOperator)
| RoleIs (op : FindOperator).

(** Condition on the [workflow] relation: [{ id: ... }]. *)
Inductive WorkflowWhere :=
| WorkflowProps (id : option FindOperator).

(** [FindOptionsWhere<SharedWorkflow>]: [None] is an absent key. *)
Record FindOptionsWhere := mkWhere {
  w_workflowId : option FindOperator;
  w_userId : option FindOperator;
  w_roleId : option FindOperator;
  w_workflow : option WorkflowWhere;
  w_user : option UserWhere;
  w_role : option RoleWhere
}.

Definition empty_where : FindOptionsWhere :=
  mkWhere None None None None None None.

Definition set_workflowId (w : FindOptionsWhere) (c : FindOperator) : FindOptionsWhere :=
  mkWhere (Some c) (w_userId w) (w_roleId w) (w_workflow w) (w_user w) (w_role w).

Definition set_userId (w : FindOptionsWhere) (c : FindOperator) : FindOptionsWhere :=
  mkWhere (w_workflowId w) (Some c) (w_roleId w) (w_workflow w) (w_user w) (w_role w).

Definition set_roleId (w : FindOptionsWhere) (c : FindOperator) : FindOptionsWhere :=
  mkWhere (w_workflowId w) (w_userId w) (Some c) (w_workflow w) (w_user w) (w_role w).

Definition set_workflow (w : FindOptionsWhere) (c : WorkflowWhere) : FindOptionsWhere :=
  mkWhere (w_workflowId w) (w_userId w) (w_roleId w) (Some c) (w_user w) (w_role w).

Definition set_user (w : FindOptionsWhere) (c : UserWhere) : FindOptionsWhere :=
  mkWhere (w_workflowId w) (w_userId w) (w_roleId w) (w_workflow w) (Some c) (w_role w).

Definition set_role (w : FindOptionsWhere) (c : RoleWhere) : FindOptionsWhere :=
  mkWhere (w_workflowId w) (w_userId w) (w_roleId w) (w_workflow w) (w_user w) (Some c).

(** Options of [find]/[findOne]/[exist]. *)
Record FindOptions := mkFind {
  fo_where : FindOptionsWhere;
  fo_select : option (list string);
  fo_relations : option (list string)
}.

(** The second argument of [update]: the properties to set. *)
Record PartialEntity := mkPartial {
  pe_user : option User;
  pe_roleId : option string
}.

(** What a find hands back: the selected columns ([None] is a column left
    out by [select]) and the relations ([None]: not requested;
    [Some None]: requested, no joined row). *)
Record Loaded := mkLoaded {
  l_workflowId : option string;
  l_userId : option string;
  l_roleId : option string;
  l_workflow : option (option WorkflowEntity);
  l_role : option (option Role);
  l_user : option (option User)
}.

(** ** Reference interpretation of the mapper *)

Definition holds (op : FindOperator) (x : string) : bool :=
  match op with
  | OpEqual v => String.eqb x v
  | OpIn vs => existsb (String.eqb x) vs
  | OpNot v => negb (String.eqb x v)
  end.

Definition holds_opt (c : option FindOperator) (x : string) : bool :=
  match c with
  | None => true
  | Some op => holds op x
  end.

Definition joined_user (db : Database) (r : SharedWorkflow) : option User :=
  find (fun u => String.eqb (user_id u) (userId r)) (users db).

Definition joined_role (db : Database) (r : SharedWorkflow) : option Role :=
  find (fun x => String.eqb (role_id x) (roleId r)) (roles db).

Definition joined_workflow (db : Database) (r : SharedWorkflow) : option WorkflowEntity :=
  find (fun x => String.eqb (workflow_id x) (workflowId r)) (workflows db).

(** How a criterion whose value is [undefined] is treated.  Find options
    skip it; for the criteria of [delete] the treatment belongs to the
    mapper and is a setting of the entity manager below. *)
Inductive UndefinedCriterion :=
| SkipUndefined
| BindAsNull.

Definition undefined_holds (p : UndefinedCriterion) : bool :=
  match p with
  | SkipUndefined => true
  | BindAsNull => false
  end.

Definition matches_user (p : UndefinedCriterion) (db : Database)
  (c : option UserWhere) (r : SharedWorkflow) : bool :=
  match c with
  | None => true
  | Some (UserProps None) => true
  | Some (UserProps (Some op)) =>
      match joined_user db r with
      | Some u => holds op (user_id u)
      | None => false
      end
  | Some (UserEntity u) => String.eqb (userId r) (user_id u)
  | Some UserUndefined => undefined_holds p
  end.

Definition matches_role (db : Database) (c : option RoleWhere) (r : SharedWorkflow) : bool :=
  match c with
  | None => true
  | Some (RoleProps None None) => true
  | Some (RoleProps n s) =>
      match joined_role db r with
      | Some x => holds_opt n (role_name x) && holds_opt s (role_scope x)
      | None => false
      end
  | Some (RoleIs op) => holds op (roleId r)
  end.

Definition matches_workflow (db : Database) (c : option WorkflowWhere) (r : SharedWorkflow) : bool :=
  match c with
  | None => true
  | Some (WorkflowProps None) => true
  | Some (WorkflowProps (Some op)) =>
      match joined_workflow db r with
      | Some x => holds op (workflow_id x)
      | None => false
      end
  end.

(** A row satisfies a where object when it satisfies every key of it. *)
Definition matches (p : UndefinedCriterion) (db : Database)
  (w : FindOptionsWhere) (r : SharedWorkflow) : bool :=
  holds_opt (w_workflowId w) (workflowId r)
  && holds_opt (w_userId w) (userId r)
  && holds_opt (w_roleId w) (roleId r)
  && matches_workflow db (w_workflow w) r
  && matches_user p db (w_user w) r
  && matches_role db (w_role w) r.

Definition mem (x : string) (xs : list string) : bool :=
  existsb (String.eqb x) xs.

(** A column is returned when no selection is given, when the selection
    is empty, or when the selection names it.  Names that are not
    properties of the entity are outside the mapper's contract (it rejects
    them); the properties below that speak of selected columns take the
    names from [entity_columns]. *)
Definition selected (sel : option (list string)) (column : string) : bool :=
  match sel with
  | None => true
  | Some [] => true
  | Some fields => mem column fields
  end.

Definition requested (rels : option (list string)) (relation : string) : bool :=
  match rels with
  | None => false
  | Some names => mem relation names
  end.

Definition load (db : Database) (o : FindOptions) (r : SharedWorkflow) : Loaded :=
  {| l_workflowId := if selected (fo_select o) "workflowId" then Some (workflowId r) else None;
     l_userId := if selected (fo_select o) "userId" then Some (userId r) else None;
     l_roleId := if selected (fo_select o) "roleId" then Some (roleId r) else None;
     l_workflow := if requested (fo_relations o) "workflow" then Some (joined_workflow db r) else None;
     l_role := if requested (fo_relations o) "role" then Some (joined_role db r) else None;
     l_user := if requested (fo_relations o) "user" then Some (joined_user db r) else None |}.

(** *** The repository monad: a computation over the database *)

Definition Repo (A : Type) : Type := Database -> A * Database.

Definition ret {A} (a : A) : Repo A := fun db => (a, db).

Definition bind {A B} (m : Repo A) (k : A -> Repo B) : Repo B :=
  fun db => let (a, db') := m db in k a db'.

Notation "x <- m ;; k" := (bind m (fun x => k))
  (at level 61, m at next level, right associativity).

Definition result {A} (m : Repo A) (db : Database) : A := fst (m db).
Definition state_after {A} (m : Repo A) (db : Database) : Database := snd (m db).

Definition rows (db : Database) (w : FindOptionsWhere) : list SharedWorkflow :=
  filter (matches SkipUndefined db w) (sharedWorkflows db).

(** The queries carry no ordering: the order of the list that [find]
    returns, and which of several matching rows [findOne] returns, are the
    engine's choice; the table's order stands for it here. *)
Definition find (o : FindOptions) : Repo (list Loaded) :=
  fun db => (map (load db o) (rows db (fo_where o)), db).

Definition findOne (o : FindOptions) : Repo (option Loaded) :=
  fun db => (hd_error (map (load db o) (rows db (fo_where o))), db).

Definition exist (o : FindOptions) : Repo bool :=
  fun db => (existsb (matches SkipUndefined db (fo_where o)) (sharedWorkflows db), db).

Record UpdateResult := mkUpdateResult { updated : nat }.
Record DeleteResult := mkDeleteResult { deleted : nat }.

Definition assign (p : PartialEntity) (r : SharedWorkflow) : SharedWorkflow :=
  {| workflowId := workflowId r;
     userId := match pe_user p with Some u => user_id u | None => userId r end;
     roleId := match pe_roleId p with Some x => x | None => roleId r end |}.

(** An entity manager (the repository's own, or that of a transaction);
    it carries the mapper's treatment of [undefined] criteria. *)
Record EntityManager := mkEntityManager {
  undefinedCriterion : UndefinedCriterion
}.

(** The failure of a statement on a key or foreign-key constraint. *)
Inductive QueryFailedError :=
| ConstraintViolated.

(** Modelled from the spec: the declaration of the [SharedWorkflow] entity
    is not in the sources.  The spec gives the schema
    [shared_workflow(workflow_id, user_id, role_id)] with foreign keys to
    the workflow, user and role tables, and at most one sharing row per
    [(workflowId, userId)] pair. *)
Definition same_key (a b : SharedWorkflow) : bool :=
  String.eqb (workflowId a) (workflowId b) && String.eqb (userId a) (userId b).

Definition workflow_exists (db : Database) (id : string) : bool :=
  existsb (fun x => String.eqb (workflow_id x) id) (workflows db).

Definition user_exists (db : Database) (id : string) : bool :=
  existsb (fun x => String.eqb (user_id x) id) (users db).

Definition role_exists (db : Database) (id : string) : bool :=
  existsb (fun x => String.eqb (role_id x) id) (roles db).

Definition references_hold (db : Database) (r : SharedWorkflow) : bool :=
  workflow_exists db (workflowId r) && user_exists db (userId r)
  && role_exists db (roleId r).

(** How many rows of [t] have the key of [r]. *)
Definition occurrences (r : SharedWorkflow) (t : list SharedWorkflow) : nat :=
  length (filter (same_key r) t).

Fixpoint distinct_keys (l : list SharedWorkflow) : bool :=
  match l with
  | [] => true
  | e :: l' => negb (existsb (same_key e) l') && distinct_keys l'
  end.

(** The references that an update writes exist. *)
Definition assigned_references_hold (db : Database) (p : PartialEntity) : bool :=
  match pe_user p with Some u => user_exists db (user_id u) | None => true end
  && match pe_roleId p with Some x => role_exists db x | None => true end.

(** [update(criteria, partial)]: one UPDATE statement.  It fails, and
    changes nothing, when a row it changes would refer to a missing row or
    would share its key with another row of the changed table. *)
Definition em_update (manager : EntityManager) (criteria : FindOptionsWhere)
  (p : PartialEntity) : Repo (QueryFailedError + UpdateResult) :=
  fun db =>
    let hit := matches (undefinedCriterion manager) db criteria in
    let changed := map (fun r => if hit r then assign p r else r) (sharedWorkflows db) in
    if forallb (fun r => negb (hit r)
                         || (assigned_references_hold db p
                             && Nat.eqb (occurrences (assign p r) changed) 1))
               (sharedWorkflows db)
    then (inr (mkUpdateResult (length (filter hit (sharedWorkflows db)))),
          with_sharedWorkflows db changed)
    else (inl ConstraintViolated, db).

Definition em_delete (transaction : EntityManager) (criteria : FindOptionsWhere)
  : Repo DeleteResult :=
  fun db =>
    let hit := matches (undefinedCriterion transaction) db criteria in
    (mkDeleteResult (length (filter hit (sharedWorkflows db))),
     with_sharedWorkflows db (filter (fun r => negb (hit r)) (sharedWorkflows db))).

(** The row [r] after a save of [entities]: when an entity has its key,
    the row takes that entity's role (the last such entity's). *)
Definition saved_over (entities : list SharedWorkflow) (r : SharedWorkflow)
  : SharedWorkflow :=
  match List.find (same_key r) (rev entities) with
  | Some e => mkShared (workflowId r) (userId r) (roleId e)
  | None => r
  end.

(** The entities whose key no row has yet: the ones a save inserts. *)
Definition not_stored (db : Database) (entities : list SharedWorkflow)
  : list SharedWorkflow :=
  filter (fun e => negb (existsb (same_key e) (sharedWorkflows db))) entities.

(** [transaction.save(entities)]: an entity whose key a row already has
    updates that row; the others are inserted together.  The save fails,
    and changes nothing, when an entity refers to a missing workflow, user
    or role, or when two of the entities to insert have the same key. *)
Definition em_save (transaction : EntityManager) (entities : list SharedWorkflow)
  : Repo (QueryFailedError + list SharedWorkflow) :=
  fun db =>
    if forallb (references_hold db) entities && distinct_keys (not_stored db entities)
    then (inr entities,
          with_sharedWorkflows db
            (map (saved_over entities) (sharedWorkflows db) ++ not_stored db entities))
    else (inl ConstraintViolated, db).

(** [this.create(entity)]: the entity instance with the given properties. *)
Definition create (entity : SharedWorkflow) : SharedWorkflow := entity.

(** ** SharedWorkflowRepository *)

(** The repository object: a [Repository<SharedWorkflow>] over the data
    source's manager. *)
Record SharedWorkflowRepository := mkRepository {
  manager : EntityManager
}.

Definition update (this : SharedWorkflowRepository) := em_update (manager this).

(** [options] of [getSharing]:
    [{ allowGlobalScope: true; globalScope } | { allowGlobalScope: false }]. *)
Inductive GetSharingOptions :=
| AllowGlobalScope (globalScope : Scope)
| DisallowGlobalScope.

Definition allowGlobalScope (options : GetSharingOptions) : bool :=
  match options with
  | AllowGlobalScope _ => true
  | DisallowGlobalScope => false
  end.

(** [options] of [getSharedWorkflows]. *)
Record GetSharedWorkflowsOptions := mkGetSharedWorkflowsOptions {
  gsw_relations : option (list string);
  gsw_workflowIds : option (list string)
}.

Definition hasAccess_where (workflowId : string) (user : User) : FindOptionsWhere :=
  let where_ := set_workflowId empty_where (OpEqual workflowId) in
  if negb (hasGlobalScope user "workflow:read")
  then set_userId where_ (OpEqual (user_id user))
  else where_.

Definition hasAccess (workflowId : string) (user : User) : Repo bool :=
  exist (mkFind (hasAccess_where workflowId user) None None).

Definition getSharedWorkflowIds (workflowIds : list string) : Repo (list (option string)) :=
  sharedWorkflows <- find (mkFind (set_workflowId empty_where (OpIn workflowIds))
                                  (Some ["workflowId"]) None) ;;
  ret (map (fun sharing => l_workflowId sharing) sharedWorkflows).

Definition findByWorkflowIds_options (workflowIds : list string) : FindOptions :=
  mkFind (set_workflowId
            (set_role empty_where
               (RoleProps (Some (OpEqual "owner")) (Some (OpEqual "workflow"))))
            (OpIn workflowIds))
         None
         (Some ["role"; "user"]).

Definition findByWorkflowIds (workflowIds : list string) : Repo (list Loaded) :=
  find (findByWorkflowIds_options workflowIds).

Definition findSharing_where (workflowId : string) (user : User) (scope : Scope)
  (roles : option (list string)) : FindOptionsWhere :=
  let where_ := set_workflow empty_where (WorkflowProps (Some (OpEqual workflowId))) in
  let where_ :=
    if negb (hasGlobalScope user scope)
    then set_user where_ (UserProps (Some (OpEqual (user_id user))))
    else where_ in
  match roles with
  | Some roles => set_role where_ (RoleProps (Some (OpIn roles)) None)
  | None => where_
  end.

Definition findSharing_relations (extraRelations : option (list string)) : list string :=
  let relations := ["workflow"; "role"] in
  match extraRelations with
  | Some extraRelations => relations ++ extraRelations
  | None => relations
  end.

Definition findSharing (workflowId : string) (user : User) (scope : Scope)
  (roles extraRelations : option (list string)) : Repo (option Loaded) :=
  findOne (mkFind (findSharing_where workflowId user scope roles)
                  None
                  (Some (findSharing_relations extraRelations))).

Definition makeOwnerOfAllWorkflows_criteria (user : User) (role : Role) : FindOptionsWhere :=
  set_roleId (set_userId empty_where (OpNot (user_id user))) (OpEqual (role_id role)).

Definition makeOwnerOfAllWorkflows (this : SharedWorkflowRepository)
  (user : User) (role : Role) : Repo (QueryFailedError + UpdateResult) :=
  update this (makeOwnerOfAllWorkflows_criteria user role) (mkPartial (Some user) None).

Definition getSharing_where (user : User) (workflowId : string)
  (options : GetSharingOptions) : FindOptionsWhere :=
  let where_ := set_workflowId empty_where (OpEqual workflowId) in
  if match options with
     | DisallowGlobalScope => true
     | AllowGlobalScope globalScope => negb (hasGlobalScope user globalScope)
     end
  then set_userId where_ (OpEqual (user_id user))
  else where_.

Definition getSharing (user : User) (workflowId : string) (options : GetSharingOptions)
  (relations : option (list string)) : Repo (option Loaded) :=
  let relations := match relations with Some r => r | None => ["workflow"] end in
  findOne (mkFind (getSharing_where user workflowId options) None (Some relations)).

Definition getSharedWorkflows_where (user : User) (options : GetSharedWorkflowsOptions)
  : FindOptionsWhere :=
  let where_ :=
    if negb (mem (role_name (globalRole user)) ["owner"; "admin"])
    then set_userId empty_where (OpEqual (user_id user))
    else empty_where in
  match gsw_workflowIds options with
  | Some workflowIds => set_workflowId where_ (OpIn workflowIds)
  | None => where_
  end.

Definition getSharedWorkflows (user : User) (options : GetSharedWorkflowsOptions)
  : Repo (list Loaded) :=
  find (mkFind (getSharedWorkflows_where user options) None (gsw_relations options)).

Definition share_entities (workflow : WorkflowEntity) (users : list User) (roleId : string)
  : list SharedWorkflow :=
  fold_left
    (fun acc user =>
       if isPending user then acc
       else acc ++ [create (mkShared (workflow_id workflow) (user_id user) roleId)])
    users [].

Definition share (transaction : EntityManager) (workflow : WorkflowEntity)
  (users : list User) (roleId : string) : Repo (QueryFailedError + list SharedWorkflow) :=
  em_save transaction (share_entities workflow users roleId).

Definition findWithFields (workflowIds : list string) (fields : list string)
  : Repo (list Loaded) :=
  find (mkFind (set_workflowId empty_where (OpIn workflowIds)) (Some fields) None).

Definition deleteByIds_criteria (sharedWorkflowIds : list string) (user : option User)
  : FindOptionsWhere :=
  set_workflowId
    (set_user empty_where
       (match user with Some u => UserEntity u | None => UserUndefined end))
    (OpIn sharedWorkflowIds).

Definition deleteByIds (transaction : EntityManager) (sharedWorkflowIds : list string)
  (user : option User) : Repo DeleteResult :=
  em_delete transaction (deleteByIds_criteria sharedWorkflowIds user).

Definition findWorkflowIdsByUser_where (user : User) (roles : option (list Role))
  : FindOptionsWhere :=
  let where_ := empty_where in
  let where_ :=
    if negb (hasGlobalScope user "workflow:read")
    then set_userId where_ (OpEqual (user_id user))
    else where_ in
  match roles with
  | Some roles => set_role where_ (RoleIs (OpIn (map (fun r => role_id r) roles)))
  | None => where_
  end.

Definition findWorkflowIdsByUser (user : User) (roles : option (list Role))
  : Repo (list (option string)) :=
  sharings <- find (mkFind (findWorkflowIdsByUser_where user roles)
                           (Some ["workflowId"]) None) ;;
  ret (map (fun s => l_workflowId s) sharings).

(** *** Vocabulary of the claims about the user filter *)

(** The where object carries no condition on the user. *)
Definition omits_user_filter (w : FindOptionsWhere) : Prop :=
  w_userId w = None /\ w_user w = None.

(** The where object restricts the user to [uid], through the [userId]
    column or through the id of the joined [user]. *)
Definition filters_on_user (w : FindOptionsWhere) (uid : string) : Prop :=
  (w_userId w = Some (OpEqual uid) /\ w_user w = None)
  \/ (w_userId w = None /\ w_user w = Some (UserProps (Some (OpEqual uid)))).

(** The reading of ownership reassignment in which every row of another
    user is moved to [user] at [role], whatever its role was. *)
Definition reassign_all_foreign_rows (user : User) (role : Role)
  (t : list SharedWorkflow) : list SharedWorkflow :=
  map (fun r =>
         if negb (String.eqb (userId r) (user_id user))
         then mkShared (workflowId r) (user_id user) (role_id role)
         else r) t.

(** The row condition of [findByWorkflowIds]. *)
Definition owner_sharing_in (db : Database) (workflowIds : list string)
  (r : SharedWorkflow) : bool :=
  mem (workflowId r) workflowIds
  && match joined_role db r with
     | Some x => String.eqb (role_name x) "owner" && String.eqb (role_scope x) "workflow"
     | None => false
     end.

(** The row condition of [findWorkflowIdsByUser]. *)
Definition visible_with_role (user : User) (roles : option (list Role))
  (r : SharedWorkflow) : bool :=
  (hasGlobalScope user "workflow:read" || String.eqb (userId r) (user_id user))
  && match roles with
     | Some roles => existsb (fun x => String.eqb (roleId r) (role_id x)) roles
     | None => true
     end.

(** The columns of a row that a selection of [fields] returns, with no
    relation loaded. *)
Definition project (fields : list string) (r : SharedWorkflow) : Loaded :=
  mkLoaded (if selected (Some fields) "workflowId" then Some (workflowId r) else None)
           (if selected (Some fields) "userId" then Some (userId r) else None)
           (if selected (Some fields) "roleId" then Some (roleId r) else None)
           None None None.

(** ** cloudPlans.ts *)

Module CloudPlans.

Section Api.

Variables Err Body Net : Type.

(** How a promise settles. *)
Inductive Settled :=
| Fulfilled (body : Body)
| Rejected (reason : Err).

Record IRestApiContext := mkContext {
  baseUrl : string
}.

(** An asynchronous function body over the [get] helper of [@/utils]:
    it settles, or it issues a GET and continues with its outcome. *)
Inductive Async :=
| Settle (s : Settled)
| Get (baseURL endpoint : string) (k : Settled -> Async).

(** [return get(baseURL, endpoint)]: the returned promise is adopted. *)
Definition get (baseURL endpoint : string) : Async :=
  Get baseURL endpoint Settle.

Definition getCurrentPlan (context : IRestApiContext) : Async :=
  get (baseUrl context) "/admin/cloud-plan".

Definition getCurrentUsage (context : IRestApiContext) : Async :=
  get (baseUrl context) "/cloud/limits".

Definition getAdminPanelLoginCode (context : IRestApiContext) : Async :=
  get (baseUrl context) "/admin/auth/login/code".

(** The transport that serves a GET, over the state of the network. *)
Definition Transport : Type := string -> string -> Net -> Settled * Net.

Fixpoint run (transport : Transport) (a : Async) (n : Net) : Settled * Net :=
  match a with
  | Settle s => (s, n)
  | Get baseURL endpoint k =>
      let (s, n') := transport baseURL endpoint n in run transport (k s) n'
  end.

(** The requests a computation issues, in order. *)
Fixpoint requests (transport : Transport) (a : Async) (n : Net) : list (string * string) :=
  match a with
  | Settle _ => []
  | Get baseURL endpoint k =>
      let (s, n') := transport baseURL endpoint n in
      (baseURL, endpoint) :: requests transport (k s) n'
  end.

End Api.

End CloudPlans.

(** *** Vocabulary of the further properties *)

(** The row gives [user] access to the workflow [id]: the condition that
    [hasAccess] puts on a row. *)
Definition grants_access (user : User) (id : string) (r : SharedWorkflow) : bool :=
  String.eqb (workflowId r) id
  && (hasGlobalScope user "workflow:read" || String.eqb (userId r) (user_id user)).

(** Every sharing row has its workflow and its user in their tables. *)
Definition foreign_keys_hold (db : Database) : bool :=
  forallb (fun r =>
             match joined_workflow db r, joined_user db r with
             | Some _, Some _ => true
             | _, _ => false
             end)
          (sharedWorkflows db).

(** The entities that [share] saves: one per non-pending user. *)
Definition share_batch (workflow : WorkflowEntity) (recipients : list User)
  (role : string) : list SharedWorkflow :=
  map (fun u => mkShared (workflow_id workflow) (user_id u) role)
      (filter (fun u => negb (isPending u)) recipients).

(** The row is one that [makeOwnerOfAllWorkflows user role] changes. *)
Definition taken_over (user : User) (role : Role) (r : SharedWorkflow) : bool :=
  negb (String.eqb (userId r) (user_id user)) && String.eqb (roleId r) (role_id role).

(** The table after the rows taken over have been given to the user. *)
Definition transferred (user : User) (role : Role) (t : list SharedWorkflow)
  : list SharedWorkflow :=
  map (fun r =>
         if taken_over user role r
         then mkShared (workflowId r) (user_id user) (role_id role)
         else r) t.

(** Every row taken over can be given to the user: the user exists, and
    no other row of the changed table has the row's workflow with the
    user. *)
Definition transfer_succeeds (user : User) (role : Role) (db : Database) : bool :=
  forallb (fun r =>
             negb (taken_over user role r)
             || (user_exists db (user_id user)
                 && Nat.eqb (occurrences
                               (mkShared (workflowId r) (user_id user) (role_id role))
                               (transferred user role (sharedWorkflows db)))
                            1))
          (sharedWorkflows db).

(** The call returned, it did not raise. *)
Definition succeeded (E A : Type) (r : E + A) : bool :=
  match r with
  | inr _ => true
  | inl _ => false
  end.

(** The columns of the entity, the names a selection may use. *)
Definition entity_columns : list string := ["workflowId"; "userId"; "roleId"].

(** ** Sample data *)

Definition ownerRole : Role := mkRole "r-owner" "owner" "workflow".
Definition editorRole : Role := mkRole "r-editor" "editor" "workflow".
Definition memberRole : Role := mkRole "g-member" "member" "global".

Definition alice : User := mkUser "u1" false memberRole (fun _ => false).
Definition bob : User := mkUser "u2" false memberRole (fun _ => false).
Definition carol : User := mkUser "u3" true memberRole (fun _ => false).

Definition instanceOwner : User :=
  mkUser "u0" false (mkRole "g-owner" "owner" "global") (fun _ => true).

Definition invoices : WorkflowEntity := mkWorkflow "w1".

(** The entity manager as the mapper has it: an [undefined] criterion is
    bound as a null parameter. *)
Definition sampleManager : EntityManager := mkEntityManager BindAsNull.
Definition sampleRepository : SharedWorkflowRepository := mkRepository sampleManager.

(** Bob edits workflow [w1]; nobody else has a row. *)
Definition editorOnlyDb : Database :=
  mkDb [mkShared "w1" "u2" "r-editor"]
       [alice; bob; carol]
       [ownerRole; editorRole]
       [invoices].

Definition emptyDb : Database :=
  mkDb [] [alice; bob; carol] [ownerRole; editorRole] [invoices].

Definition payroll : WorkflowEntity := mkWorkflow "w2".

(** Bob owns [w1], which Carol edits; Alice owns [w2]. *)
Definition teamDb : Database :=
  mkDb [mkShared "w1" "u2" "r-owner"; mkShared "w1" "u3" "r-editor";
        mkShared "w2" "u1" "r-owner"]
       [alice; bob; carol]
       [ownerRole; editorRole]
       [invoices; payroll].

(** * Properties *)

(** ** Conditions and rows *)

Lemma mem_In (x : string) (xs : list string) : mem x xs = true <-> In x xs.
Proof.
  unfold mem. rewrite existsb_exists. split.
  - intros [y [Hy E]]. apply String.eqb_eq in E. now subst.
  - intros H. exists x. split; [assumption | apply String.eqb_refl].
Qed.

Lemma holds_equal (v x : string) : holds (OpEqual v) x = true <-> x = v.
Proof. simpl. apply String.eqb_eq. Qed.

Lemma holds_in (vs : list string) (x : string) : holds (OpIn vs) x = true <-> In x vs.
Proof. apply mem_In. Qed.

Lemma holds_not (v x : string) : holds (OpNot v) x = true <-> x <> v.
Proof.
  simpl. rewrite negb_true_iff. split.
  - intros E. now apply String.eqb_neq.
  - intros N. now apply String.eqb_neq.
Qed.

Lemma existsb_role_ids (x : string) (rs : list Role) :
  existsb (String.eqb x) (map (fun r => role_id r) rs)
  = existsb (fun r => String.eqb x (role_id r)) rs.
Proof.
  induction rs as [|r rs IH]; simpl; [reflexivity | now rewrite IH].
Qed.

Lemma hd_error_In (A : Type) (l : list A) (x : A) : hd_error l = Some x -> In x l.
Proof.
  destruct l as [|a l]; simpl; intros E; [discriminate | left; congruence].
Qed.

Lemma found_row (db : Database) (o : FindOptions) (f : Loaded) :
  In f (map (load db o) (rows db (fo_where o))) ->
  exists r, In r (sharedWorkflows db)
            /\ matches SkipUndefined db (fo_where o) r = true
            /\ f = load db o r.
Proof.
  intros H. apply in_map_iff in H. destruct H as [r [E Hr]].
  unfold rows in Hr. apply filter_In in Hr. destruct Hr as [Hin Hm].
  exists r. repeat split; auto.
Qed.

Lemma joined_user_id (db : Database) (r : SharedWorkflow) (u : User) :
  joined_user db r = Some u -> user_id u = userId r.
Proof.
  unfold joined_user. intros H. apply find_some in H.
  destruct H as [_ E]. now apply String.eqb_eq.
Qed.

Lemma joined_role_id (db : Database) (r : SharedWorkflow) (x : Role) :
  joined_role db r = Some x -> role_id x = roleId r.
Proof.
  unfold joined_role. intros H. apply find_some in H.
  destruct H as [_ E]. now apply String.eqb_eq.
Qed.

(** A where object that filters on a user only lets that user's rows through. *)
Lemma filters_on_user_sound (p : UndefinedCriterion) (db : Database)
  (w : FindOptionsWhere) (uid : string) (r : SharedWorkflow) :
  filters_on_user w uid -> matches p db w r = true -> userId r = uid.
Proof.
  unfold filters_on_user, matches. intros [[Hc Hu] | [Hc Hu]] Hm;
    rewrite Hc, Hu in Hm; simpl in Hm;
    rewrite !andb_true_iff in Hm; destruct Hm as [[[[[_ Hcol] _] _] Hrel] _].
  - now apply String.eqb_eq.
  - destruct (joined_user db r) as [u|] eqn:J; [|discriminate].
    apply joined_user_id in J. apply String.eqb_eq in Hrel. congruence.
Qed.

(** The two shapes exclude each other. *)
Lemma filters_on_user_not_omitted (w : FindOptionsWhere) (uid : string) :
  filters_on_user w uid -> ~ omits_user_filter w.
Proof.
  unfold filters_on_user, omits_user_filter.
  intros [[H1 H2] | [H1 H2]] [H3 H4]; congruence.
Qed.

(** The treatment of [undefined] only matters to a where object that has
    an [undefined] criterion. *)
Lemma matches_without_undefined (p q : UndefinedCriterion) (db : Database)
  (w : FindOptionsWhere) (r : SharedWorkflow) :
  w_user w <> Some UserUndefined -> matches p db w r = matches q db w r.
Proof.
  intros H. unfold matches, matches_user.
  destruct (w_user w) as [[[op|]|u|]|]; try reflexivity. congruence.
Qed.

(** [share] folds the users into the batch of entities it saves. *)
Lemma share_entities_fold (workflow : WorkflowEntity) (roleId : string)
  (users : list User) (acc : list SharedWorkflow) :
  fold_left
    (fun acc user =>
       if isPending user then acc
       else acc ++ [create (mkShared (workflow_id workflow) (user_id user) roleId)])
    users acc
  = acc ++ map (fun u => mkShared (workflow_id workflow) (user_id u) roleId)
               (filter (fun u => negb (isPending u)) users).
Proof.
  revert acc. induction users as [|u users IH]; intros acc; simpl.
  - now rewrite app_nil_r.
  - rewrite IH. destruct (isPending u); simpl; [reflexivity|].
    unfold create. now rewrite <- app_assoc.
Qed.

Lemma share_entities_eq (workflow : WorkflowEntity) (users : list User) (roleId : string) :
  share_entities workflow users roleId
  = map (fun u => mkShared (workflow_id workflow) (user_id u) roleId)
        (filter (fun u => negb (isPending u)) users).
Proof. unfold share_entities. now rewrite share_entities_fold. Qed.

(** ** Lists *)

Lemma existsb_pointwise (A : Type) (f g : A -> bool) (l : list A) :
  (forall x, f x = g x) -> existsb f l = existsb g l.
Proof.
  intros E. induction l as [|a l IH]; simpl; [reflexivity | now rewrite E, IH].
Qed.

Lemma hd_error_map_filter (A B : Type) (f : A -> B) (p : A -> bool) (l : list A) :
  hd_error (map f (filter p l)) <> None <-> existsb p l = true.
Proof.
  induction l as [|a l IH]; simpl.
  - split; [intros H; now contradiction H | discriminate].
  - destruct (p a); simpl; [|exact IH].
    split; [reflexivity | discriminate].
Qed.

Lemma filter_none (A : Type) (p : A -> bool) (l : list A) :
  (forall x, In x l -> p x = false) -> filter p l = [].
Proof.
  induction l as [|a l IH]; simpl; intros H; [reflexivity|].
  rewrite (H a (or_introl eq_refl)). apply IH. intros x Hx. apply H. now right.
Qed.

Lemma filter_all (A : Type) (p : A -> bool) (l : list A) :
  (forall x, In x l -> p x = true) -> filter p l = l.
Proof.
  induction l as [|a l IH]; simpl; intros H; [reflexivity|].
  rewrite (H a (or_introl eq_refl)). f_equal. apply IH. intros x Hx. apply H. now right.
Qed.

Lemma filter_twice (A : Type) (p : A -> bool) (l : list A) :
  filter p (filter p l) = filter p l.
Proof.
  apply filter_all. intros x Hx. now apply filter_In in Hx.
Qed.

Lemma map_fixed (A : Type) (f : A -> A) (l : list A) :
  (forall x, In x l -> f x = x) -> map f l = l.
Proof.
  induction l as [|a l IH]; simpl; intros H; [reflexivity|].
  rewrite (H a (or_introl eq_refl)). f_equal. apply IH. intros x Hx. apply H. now right.
Qed.

Lemma with_sharedWorkflows_same (db : Database) :
  with_sharedWorkflows db (sharedWorkflows db) = db.
Proof. now destruct db. Qed.

Lemma forallb_pointwise (A : Type) (f g : A -> bool) (l : list A) :
  (forall x, f x = g x) -> forallb f l = forallb g l.
Proof.
  intros E. induction l as [|a l IH]; simpl; [reflexivity | now rewrite E, IH].
Qed.

Lemma existsb_mapped (A B : Type) (f : A -> B) (g : B -> bool) (l : list A) :
  existsb g (map f l) = existsb (fun x => g (f x)) l.
Proof.
  induction l as [|a l IH]; simpl; [reflexivity | now rewrite IH].
Qed.

(** ** The user filter of the lookups *)

Lemma getSharing_where_shape (user : User) (workflowId : string) (options : GetSharingOptions) :
  getSharing_where user workflowId options
  = if match options with
       | AllowGlobalScope globalScope => hasGlobalScope user globalScope
       | DisallowGlobalScope => false
       end
    then mkWhere (Some (OpEqual workflowId)) None None None None None
    else mkWhere (Some (OpEqual workflowId)) (Some (OpEqual (user_id user))) None None None None.
Proof.
  unfold getSharing_where. destruct options as [s|]; [|reflexivity].
  now destruct (hasGlobalScope user s).
Qed.

Lemma findSharing_where_shape (workflowId : string) (user : User) (scope : Scope)
  (roles : option (list string)) :
  findSharing_where workflowId user scope roles
  = mkWhere None None None
      (Some (WorkflowProps (Some (OpEqual workflowId))))
      (if hasGlobalScope user scope then None
       else Some (UserProps (Some (OpEqual (user_id user)))))
      (match roles with
       | Some roles => Some (RoleProps (Some (OpIn roles)) None)
       | None => None
       end).
Proof.
  unfold findSharing_where. now destruct (hasGlobalScope user scope), roles.
Qed.

Lemma getSharedWorkflows_where_shape (user : User) (options : GetSharedWorkflowsOptions) :
  getSharedWorkflows_where user options
  = mkWhere
      (match gsw_workflowIds options with
       | Some workflowIds => Some (OpIn workflowIds)
       | None => None
       end)
      (if mem (role_name (globalRole user)) ["owner"; "admin"] then None
       else Some (OpEqual (user_id user)))
      None None None None.
Proof.
  unfold getSharedWorkflows_where.
  now destruct (mem (role_name (globalRole user)) ["owner"; "admin"]),
               (gsw_workflowIds options).
Qed.

Lemma owner_or_admin (name : string) :
  mem name ["owner"; "admin"] = true <-> name = "owner" \/ name = "admin".
Proof.
  rewrite mem_In. simpl. intuition congruence.
Qed.

Lemma findOne_found (db : Database) (o : FindOptions) (f : Loaded) :
  result (findOne o) db = Some f ->
  exists r, In r (sharedWorkflows db)
            /\ matches SkipUndefined db (fo_where o) r = true
            /\ f = load db o r.
Proof.
  unfold result, findOne. simpl. intros H.
  apply hd_error_In in H. now apply found_row.
Qed.

Lemma find_found (db : Database) (o : FindOptions) (f : Loaded) :
  In f (result (find o) db) ->
  exists r, In r (sharedWorkflows db)
            /\ matches SkipUndefined db (fo_where o) r = true
            /\ f = load db o r.
Proof. unfold result, find. simpl. apply found_row. Qed.

(** ** Existence and listing *)

(** A where object on columns only is the conjunction of its column conditions. *)
Lemma matches_columns (p : UndefinedCriterion) (db : Database)
  (a b c : option FindOperator) (r : SharedWorkflow) :
  matches p db (mkWhere a b c None None None) r
  = holds_opt a (workflowId r) && holds_opt b (userId r) && holds_opt c (roleId r).
Proof. unfold matches. simpl. now rewrite !andb_true_r. Qed.

Lemma hasAccess_where_shape (workflowId : string) (user : User) :
  hasAccess_where workflowId user
  = mkWhere (Some (OpEqual workflowId))
            (if hasGlobalScope user "workflow:read" then None
             else Some (OpEqual (user_id user)))
            None None None None.
Proof.
  unfold hasAccess_where. now destruct (hasGlobalScope user "workflow:read").
Qed.

(** C2: [hasAccess workflowId user] is true exactly when the table has a
    row for [workflowId] which, unless the user holds the global
    [workflow:read] scope, belongs to the user. *)
Theorem hasAccess_iff_sharing_exists (id : string) (user : User) (db : Database) :
  result (hasAccess id user) db = true <->
  exists r, In r (sharedWorkflows db)
            /\ workflowId r = id
            /\ (hasGlobalScope user "workflow:read" = true \/ userId r = user_id user).
Proof.
  unfold result, hasAccess, exist. simpl.
  rewrite existsb_exists, hasAccess_where_shape.
  split.
  - intros [r [Hin Hm]]. exists r. split; [assumption|].
    rewrite matches_columns in Hm. simpl in Hm.
    rewrite andb_true_r, andb_true_iff in Hm. destruct Hm as [Hw Hu].
    apply String.eqb_eq in Hw. split; [assumption|].
    destruct (hasGlobalScope user "workflow:read"); [now left | right].
    now apply String.eqb_eq.
  - intros [r [Hin [Hw Hu]]]. exists r. split; [assumption|].
    rewrite matches_columns. simpl.
    rewrite andb_true_r, andb_true_iff. split; [now apply String.eqb_eq|].
    destruct (hasGlobalScope user "workflow:read"); [reflexivity|].
    destruct Hu as [Hu | Hu]; [discriminate | now apply String.eqb_eq].
Qed.

(** C6: [findByWorkflowIds workflowIds] returns exactly the rows whose
    [workflowId] is in the list and whose joined role is named owner at
    scope workflow, each with its columns and with the [role] and [user]
    relations loaded (and no other relation). *)
Theorem findByWorkflowIds_owner_sharings (workflowIds : list string) (db : Database) :
  result (findByWorkflowIds workflowIds) db
  = map (fun r => mkLoaded (Some (workflowId r)) (Some (userId r)) (Some (roleId r))
                           None (Some (joined_role db r)) (Some (joined_user db r)))
        (filter (owner_sharing_in db workflowIds) (sharedWorkflows db))
  /\ (forall r, In r (filter (owner_sharing_in db workflowIds) (sharedWorkflows db)) <->
        In r (sharedWorkflows db)
        /\ In (workflowId r) workflowIds
        /\ exists x, joined_role db r = Some x
                     /\ role_id x = roleId r
                     /\ role_name x = "owner" /\ role_scope x = "workflow").
Proof.
  split.
  - unfold result, findByWorkflowIds, find, rows. simpl.
    erewrite filter_ext; [reflexivity|].
    intros r. unfold matches, owner_sharing_in. simpl.
    rewrite !andb_true_r. reflexivity.
  - intros r. rewrite filter_In. unfold owner_sharing_in.
    rewrite andb_true_iff, mem_In. split.
    + intros [Hin [Hw Hr]]. repeat split; auto.
      destruct (joined_role db r) as [x|] eqn:J; [|discriminate].
      exists x. apply andb_true_iff in Hr. destruct Hr as [Hn Hs].
      apply String.eqb_eq in Hn, Hs. apply joined_role_id in J. auto.
    + intros [Hin [Hw [x [J [_ [Hn Hs]]]]]]. repeat split; auto.
      rewrite J, Hn, Hs. reflexivity.
Qed.

(** C7: [findWorkflowIdsByUser user roles] returns the [workflowId] of
    every row that belongs to the user (of every row when the user holds
    the global [workflow:read] scope) and, when [roles] is given, whose
    role is one of the given roles; one id per row, in table order. *)
Theorem findWorkflowIdsByUser_ids (user : User) (roles : option (list Role)) (db : Database) :
  result (findWorkflowIdsByUser user roles) db
  = map (fun r => Some (workflowId r))
        (filter (visible_with_role user roles) (sharedWorkflows db)).
Proof.
  unfold result, findWorkflowIdsByUser, bind, find, ret, rows. simpl.
  rewrite map_map. simpl.
  erewrite filter_ext; [reflexivity|].
  intros r. unfold findWorkflowIdsByUser_where, visible_with_role, matches.
  destruct (hasGlobalScope user "workflow:read"), roles as [rs|]; simpl;
    rewrite ?andb_true_r, ?existsb_role_ids; reflexivity.
Qed.

(** ** The lookups, row by row *)

Lemma joined_workflow_id (db : Database) (r : SharedWorkflow) (x : WorkflowEntity) :
  joined_workflow db r = Some x -> workflow_id x = workflowId r.
Proof.
  unfold joined_workflow. intros H. apply find_some in H.
  destruct H as [_ E]. now apply String.eqb_eq.
Qed.


Lemma getSharing_matches (user : User) (id : string) (options : GetSharingOptions)
  (db : Database) (r : SharedWorkflow) :
  matches SkipUndefined db (getSharing_where user id options) r
  = String.eqb (workflowId r) id
    && (match options with
        | AllowGlobalScope globalScope => hasGlobalScope user globalScope
        | DisallowGlobalScope => false
        end
        || String.eqb (userId r) (user_id user)).
Proof.
  rewrite getSharing_where_shape.
  destruct (match options with
            | AllowGlobalScope globalScope => hasGlobalScope user globalScope
            | DisallowGlobalScope => false
            end);
    rewrite matches_columns; simpl; now rewrite ?andb_true_r.
Qed.

Lemma findSharing_matches (id : string) (user : User) (scope : Scope)
  (names : option (list string)) (db : Database) (r : SharedWorkflow) :
  matches SkipUndefined db (findSharing_where id user scope names) r
  = match joined_workflow db r with
    | Some x => String.eqb (workflow_id x) id
    | None => false
    end
    && (hasGlobalScope user scope
        || match joined_user db r with
           | Some y => String.eqb (user_id y) (user_id user)
           | None => false
           end)
    && match names with
       | Some allowed =>
           match joined_role db r with
           | Some x => mem (role_name x) allowed
           | None => false
           end
       | None => true
       end.
Proof.
  rewrite findSharing_where_shape. unfold matches, matches_workflow, matches_user,
    matches_role.
  cbn [w_workflowId w_userId w_roleId w_workflow w_user w_role holds_opt].
  destruct (joined_workflow db r) as [x|]; [|reflexivity].
  destruct (hasGlobalScope user scope), names as [allowed|];
    cbn [holds holds_opt orb andb];
    repeat match goal with
           | |- context [joined_user db r] => destruct (joined_user db r)
           | |- context [joined_role db r] => destruct (joined_role db r)
           end;
    unfold mem; rewrite ?andb_true_r, ?andb_false_r; reflexivity.
Qed.

Lemma getSharedWorkflows_eval (user : User) (options : GetSharedWorkflowsOptions)
  (db : Database) :
  result (getSharedWorkflows user options) db
  = map (load db (mkFind empty_where None (gsw_relations options)))
        (filter (fun r =>
                   (mem (role_name (globalRole user)) ["owner"; "admin"]
                    || String.eqb (userId r) (user_id user))
                   && match gsw_workflowIds options with
                      | Some ids => mem (workflowId r) ids
                      | None => true
                      end)
                (sharedWorkflows db)).
Proof.
  unfold result, getSharedWorkflows, find, rows.
  cbn [fst fo_where]. rewrite getSharedWorkflows_where_shape.
  erewrite filter_ext; [reflexivity|].
  intros r. rewrite matches_columns.
  destruct (mem (role_name (globalRole user)) ["owner"; "admin"]),
           (gsw_workflowIds options);
    cbn [holds_opt holds orb]; unfold mem;
    rewrite ?andb_true_r, ?andb_true_l; try reflexivity; apply andb_comm.
Qed.

(** C1: [getSharing], [findSharing] and [getSharedWorkflows] leave the user
    filter out of their query exactly when the caller qualifies
    ([getSharing]: the options allow a global scope and the user has it;
    [findSharing]: the user has the given global scope;
    [getSharedWorkflows]: the global role is named owner or admin), and
    otherwise filter on the caller's id.  This holds of the where object
    each of them builds and of what each of them answers: a lookup finds a
    sharing exactly when some row passes its other conditions and either
    the caller qualifies or the row is the caller's; a listing holds every
    such row; and whatever is returned to a caller who does not qualify
    has the caller's id as its [userId]. *)
Theorem user_filter_omitted_iff_caller_qualifies (user : User) (id : string) :
  (forall options,
      (omits_user_filter (getSharing_where user id options) <->
       allowGlobalScope options = true
       /\ exists globalScope, options = AllowGlobalScope globalScope
                              /\ hasGlobalScope user globalScope = true)
      /\ (omits_user_filter (getSharing_where user id options)
          \/ filters_on_user (getSharing_where user id options) (user_id user)))
  /\ (forall scope roles,
      (omits_user_filter (findSharing_where id user scope roles) <->
       hasGlobalScope user scope = true)
      /\ (omits_user_filter (findSharing_where id user scope roles)
          \/ filters_on_user (findSharing_where id user scope roles) (user_id user)))
  /\ (forall options,
      (omits_user_filter (getSharedWorkflows_where user options) <->
       role_name (globalRole user) = "owner" \/ role_name (globalRole user) = "admin")
      /\ (omits_user_filter (getSharedWorkflows_where user options)
          \/ filters_on_user (getSharedWorkflows_where user options) (user_id user)))
  /\ (forall db options relations f,
      result (getSharing user id options relations) db = Some f ->
      omits_user_filter (getSharing_where user id options)
      \/ l_userId f = Some (user_id user))
  /\ (forall db scope roles extraRelations f,
      result (findSharing id user scope roles extraRelations) db = Some f ->
      omits_user_filter (findSharing_where id user scope roles)
      \/ l_userId f = Some (user_id user))
  /\ (forall db options f,
      In f (result (getSharedWorkflows user options) db) ->
      omits_user_filter (getSharedWorkflows_where user options)
      \/ l_userId f = Some (user_id user))
  /\ (forall db options relations,
      result (getSharing user id options relations) db <> None <->
      exists r, In r (sharedWorkflows db)
                /\ workflowId r = id
                /\ ((exists globalScope, options = AllowGlobalScope globalScope
                                         /\ hasGlobalScope user globalScope = true)
                    \/ userId r = user_id user))
  /\ (forall db scope roles extraRelations,
      result (findSharing id user scope roles extraRelations) db <> None <->
      exists r, In r (sharedWorkflows db)
                /\ workflowId r = id
                /\ joined_workflow db r <> None
                /\ (hasGlobalScope user scope = true
                    \/ (userId r = user_id user /\ joined_user db r <> None))
                /\ (forall allowed, roles = Some allowed ->
                      exists x, joined_role db r = Some x /\ In (role_name x) allowed))
  /\ (forall db options r,
      In r (sharedWorkflows db) ->
      (role_name (globalRole user) = "owner" \/ role_name (globalRole user) = "admin"
       \/ userId r = user_id user) ->
      (forall ids, gsw_workflowIds options = Some ids -> In (workflowId r) ids) ->
      exists f, In f (result (getSharedWorkflows user options) db)
                /\ l_workflowId f = Some (workflowId r)
                /\ l_userId f = Some (userId r)
                /\ l_roleId f = Some (roleId r)).
Proof.
  assert (G : forall options,
      (omits_user_filter (getSharing_where user id options) <->
       allowGlobalScope options = true
       /\ exists globalScope, options = AllowGlobalScope globalScope
                              /\ hasGlobalScope user globalScope = true)
      /\ (omits_user_filter (getSharing_where user id options)
          \/ filters_on_user (getSharing_where user id options) (user_id user))).
  { intros options. rewrite getSharing_where_shape.
    unfold omits_user_filter, filters_on_user.
    destruct options as [s|]; simpl.
    - destruct (hasGlobalScope user s) eqn:Hs; simpl.
      + split; [|left; auto]. split; [|auto].
        intros _. split; [reflexivity|]. now exists s.
      + split; [|right; left; auto]. split.
        * intros [H _]. discriminate.
        * intros [_ [s' [E Hs']]]. injection E as <-. congruence.
    - split; [|right; left; auto]. split.
      + intros [H _]. discriminate.
      + intros [H _]. discriminate. }
  assert (F : forall scope roles,
      (omits_user_filter (findSharing_where id user scope roles) <->
       hasGlobalScope user scope = true)
      /\ (omits_user_filter (findSharing_where id user scope roles)
          \/ filters_on_user (findSharing_where id user scope roles) (user_id user))).
  { intros scope roles. rewrite findSharing_where_shape.
    unfold omits_user_filter, filters_on_user. simpl.
    destruct (hasGlobalScope user scope); simpl.
    - split; [split; intros; split; reflexivity | left; split; reflexivity].
    - split; [|right; right; auto]. split.
      + intros [_ H]. discriminate.
      + discriminate. }
  assert (S : forall options,
      (omits_user_filter (getSharedWorkflows_where user options) <->
       role_name (globalRole user) = "owner" \/ role_name (globalRole user) = "admin")
      /\ (omits_user_filter (getSharedWorkflows_where user options)
          \/ filters_on_user (getSharedWorkflows_where user options) (user_id user))).
  { intros options. rewrite getSharedWorkflows_where_shape.
    rewrite <- owner_or_admin.
    unfold omits_user_filter, filters_on_user.
    destruct (mem (role_name (globalRole user)) ["owner"; "admin"]);
      cbn [w_userId w_user].
    - split; [split; intros; split; reflexivity | left; split; reflexivity].
    - split; [|right; left; auto]. split.
      + intros [H _]. discriminate.
      + discriminate. }
  split; [exact G|]. split; [exact F|]. split; [exact S|].
  split; [|split; [|split; [|split; [|split]]]].
  - intros db options relations f H.
    destruct (proj2 (G options)) as [O | Fl]; [now left | right].
    apply findOne_found in H. destruct H as [r [_ [Hm ->]]]. simpl in *.
    f_equal. eapply filters_on_user_sound; eauto.
  - intros db scope roles extraRelations f H.
    destruct (proj2 (F scope roles)) as [O | Fl]; [now left | right].
    apply findOne_found in H. destruct H as [r [_ [Hm ->]]]. simpl in *.
    f_equal. eapply filters_on_user_sound; eauto.
  - intros db options f H.
    destruct (proj2 (S options)) as [O | Fl]; [now left | right].
    apply find_found in H. destruct H as [r [_ [Hm ->]]]. simpl in *.
    f_equal. eapply filters_on_user_sound; eauto.
  - intros db options relations. unfold result, getSharing, findOne, rows.
    cbn [fst fo_where]. rewrite hd_error_map_filter, existsb_exists.
    split.
    + intros [r [Hin Hm]]. exists r. split; [assumption|].
      rewrite getSharing_matches in Hm. apply andb_true_iff in Hm.
      destruct Hm as [Hw Hu]. apply String.eqb_eq in Hw. split; [assumption|].
      apply orb_true_iff in Hu. destruct Hu as [Hu | Hu].
      * left. destruct options as [s|]; [now exists s | discriminate].
      * right. now apply String.eqb_eq.
    + intros [r [Hin [Hw Hu]]]. exists r. split; [assumption|].
      rewrite getSharing_matches. apply andb_true_iff. split; [now apply String.eqb_eq|].
      apply orb_true_iff. destruct Hu as [[s [-> Hs]] | Hu]; [now left | right].
      now apply String.eqb_eq.
  - intros db scope roles extraRelations. unfold result, findSharing, findOne, rows.
    cbn [fst fo_where]. rewrite hd_error_map_filter, existsb_exists.
    split.
    + intros [r [Hin Hm]]. exists r. split; [assumption|].
      rewrite findSharing_matches in Hm. rewrite !andb_true_iff in Hm.
      destruct Hm as [[Hw Hu] Hr].
      destruct (joined_workflow db r) as [x|] eqn:Jw; [|discriminate].
      apply String.eqb_eq in Hw. pose proof (joined_workflow_id _ _ Jw) as Ew.
      split; [congruence|]. split; [discriminate|]. split.
      * apply orb_true_iff in Hu. destruct Hu as [Hu | Hu]; [now left | right].
        destruct (joined_user db r) as [y|] eqn:Ju; [|discriminate].
        apply String.eqb_eq in Hu. pose proof (joined_user_id _ _ Ju) as Eu.
        split; [congruence | discriminate].
      * intros allowed ->.
        destruct (joined_role db r) as [x'|]; [|discriminate].
        exists x'. split; [reflexivity | now apply mem_In].
    + intros [r [Hin [Hw [Jw [Hu Hr]]]]]. exists r. split; [assumption|].
      rewrite findSharing_matches. rewrite !andb_true_iff. split; [split|].
      * destruct (joined_workflow db r) as [x|] eqn:Jx; [|now contradiction Jw].
        apply String.eqb_eq. rewrite (joined_workflow_id _ _ Jx). exact Hw.
      * apply orb_true_iff. destruct Hu as [Hu | [Hu Ju]]; [now left | right].
        destruct (joined_user db r) as [y|] eqn:Jy; [|now contradiction Ju].
        apply String.eqb_eq. rewrite (joined_user_id _ _ Jy). exact Hu.
      * destruct roles as [allowed|]; [|reflexivity].
        destruct (Hr allowed eq_refl) as [x' [-> Hx]]. now apply mem_In.
  - intros db options r Hin Hu Hids. rewrite getSharedWorkflows_eval.
    exists (load db (mkFind empty_where None (gsw_relations options)) r).
    split; [|repeat split].
    apply in_map. apply filter_In. split; [assumption|].
    apply andb_true_iff. split.
    + apply orb_true_iff.
      destruct Hu as [Hu | [Hu | Hu]];
        [left; apply owner_or_admin; now left
        |left; apply owner_or_admin; now right
        |right; now apply String.eqb_eq].
    + destruct (gsw_workflowIds options) as [ids|]; [|reflexivity].
      apply mem_In. now apply Hids.
Qed.

(** ** Saving *)

Lemma same_key_iff (a b : SharedWorkflow) :
  same_key a b = true <-> workflowId a = workflowId b /\ userId a = userId b.
Proof.
  unfold same_key. now rewrite andb_true_iff, !String.eqb_eq.
Qed.

Lemma same_key_sym (a b : SharedWorkflow) : same_key a b = same_key b a.
Proof.
  unfold same_key.
  now rewrite (String.eqb_sym (workflowId a)), (String.eqb_sym (userId a)).
Qed.

Lemma saved_over_key (entities : list SharedWorkflow) (r : SharedWorkflow) :
  workflowId (saved_over entities r) = workflowId r
  /\ userId (saved_over entities r) = userId r.
Proof.
  unfold saved_over. now destruct (List.find (same_key r) (rev entities)).
Qed.

Lemma saved_over_untouched (entities : list SharedWorkflow) (r : SharedWorkflow) :
  (forall e, In e entities -> same_key r e = false) -> saved_over entities r = r.
Proof.
  intros H. unfold saved_over.
  destruct (List.find (same_key r) (rev entities)) as [e|] eqn:F; [|reflexivity].
  apply find_some in F. destruct F as [Hin Hk]. apply in_rev in Hin.
  rewrite (H e Hin) in Hk. discriminate.
Qed.

Lemma saved_over_touched (entities : list SharedWorkflow) (r e : SharedWorkflow) :
  In e entities -> same_key r e = true ->
  exists e', In e' entities /\ same_key r e' = true
             /\ saved_over entities r = mkShared (workflowId r) (userId r) (roleId e').
Proof.
  intros Hin Hk. unfold saved_over.
  destruct (List.find (same_key r) (rev entities)) as [e'|] eqn:F.
  - apply find_some in F. destruct F as [Hin' Hk']. apply in_rev in Hin'.
    now exists e'.
  - apply in_rev in Hin. rewrite (find_none _ _ F e Hin) in Hk. discriminate.
Qed.

Lemma share_is_save (transaction : EntityManager) (workflow : WorkflowEntity)
  (recipients : list User) (role : string) (db : Database) :
  share transaction workflow recipients role db
  = em_save transaction (share_batch workflow recipients role) db.
Proof. unfold share. now rewrite share_entities_eq. Qed.

(** The two outcomes of [share]. *)
Lemma share_cases (transaction : EntityManager) (workflow : WorkflowEntity)
  (recipients : list User) (role : string) (db : Database) :
  (result (share transaction workflow recipients role) db
   = inr (share_batch workflow recipients role)
   /\ state_after (share transaction workflow recipients role) db
      = with_sharedWorkflows db
          (map (saved_over (share_batch workflow recipients role)) (sharedWorkflows db)
           ++ not_stored db (share_batch workflow recipients role)))
  \/ (result (share transaction workflow recipients role) db = inl ConstraintViolated
      /\ state_after (share transaction workflow recipients role) db = db).
Proof.
  unfold result, state_after. rewrite share_is_save. unfold em_save.
  destruct (forallb (references_hold db) (share_batch workflow recipients role)
            && distinct_keys (not_stored db (share_batch workflow recipients role)));
    [left | right]; split; reflexivity.
Qed.

Lemma active_user_row (workflow : WorkflowEntity) (recipients : list User)
  (role : string) (e : SharedWorkflow) :
  In e (share_batch workflow recipients role) <->
  exists u, In u recipients /\ isPending u = false
            /\ e = mkShared (workflow_id workflow) (user_id u) role.
Proof.
  unfold share_batch. rewrite in_map_iff. split.
  - intros [u [E Hu]]. apply filter_In in Hu. destruct Hu as [Hin Hp].
    exists u. apply negb_true_iff in Hp. auto.
  - intros [u [Hin [Hp E]]]. exists u. split; [auto|].
    apply filter_In. split; [assumption|]. now rewrite Hp.
Qed.

Lemma distinct_keys_of_distinct_users (workflow : WorkflowEntity) (role : string)
  (l : list User) :
  NoDup (map (fun u => user_id u) l) ->
  distinct_keys (map (fun u => mkShared (workflow_id workflow) (user_id u) role) l) = true.
Proof.
  induction l as [|a l IH]; simpl; intros H; [reflexivity|].
  inversion H as [|x xs Hnotin Hnd]; subst.
  rewrite (IH Hnd), andb_true_r. apply negb_true_iff. apply not_true_is_false.
  intros E. apply existsb_exists in E. destruct E as [e [He Hk]].
  apply in_map_iff in He. destruct He as [u [<- Hu]].
  apply same_key_iff in Hk. destruct Hk as [_ Hk]. simpl in Hk.
  apply Hnotin. rewrite Hk. now apply in_map.
Qed.

(** When nothing stands in the way, [share] inserts its batch. *)
Lemma share_inserts (transaction : EntityManager) (workflow : WorkflowEntity)
  (recipients : list User) (role : string) (db : Database) :
  workflow_exists db (workflow_id workflow) = true ->
  role_exists db role = true ->
  (forall u, In u recipients -> isPending u = false ->
             user_exists db (user_id u) = true) ->
  (forall u r, In u recipients -> isPending u = false -> In r (sharedWorkflows db) ->
               workflowId r = workflow_id workflow -> userId r <> user_id u) ->
  NoDup (map (fun u => user_id u) (filter (fun u => negb (isPending u)) recipients)) ->
  share transaction workflow recipients role db
  = (inr (share_batch workflow recipients role),
     with_sharedWorkflows db (sharedWorkflows db ++ share_batch workflow recipients role)).
Proof.
  intros Hw Hr Hu Hfresh Hnd. rewrite share_is_save. unfold em_save.
  assert (N : not_stored db (share_batch workflow recipients role)
              = share_batch workflow recipients role).
  { apply filter_all. intros e He. apply active_user_row in He.
    destruct He as [u [Hin [Hp ->]]]. apply negb_true_iff. apply not_true_is_false.
    intros E. apply existsb_exists in E. destruct E as [r [Hr' Hk]].
    apply same_key_iff in Hk. simpl in Hk. destruct Hk as [Hk1 Hk2].
    now apply (Hfresh u r Hin Hp Hr'). }
  assert (M : map (saved_over (share_batch workflow recipients role)) (sharedWorkflows db)
              = sharedWorkflows db).
  { apply map_fixed. intros r Hr'. apply saved_over_untouched. intros e He.
    apply active_user_row in He. destruct He as [u [Hin [Hp ->]]].
    apply not_true_is_false. intros Hk. apply same_key_iff in Hk. simpl in Hk.
    destruct Hk as [Hk1 Hk2]. now apply (Hfresh u r Hin Hp Hr'). }
  assert (R : forallb (references_hold db) (share_batch workflow recipients role) = true).
  { apply forallb_forall. intros e He. apply active_user_row in He.
    destruct He as [u [Hin [Hp ->]]]. unfold references_hold. simpl.
    now rewrite Hw, Hr, (Hu u Hin Hp). }
  rewrite N, M, R. unfold share_batch at 1.
  now rewrite (distinct_keys_of_distinct_users workflow role _ Hnd).
Qed.

(** C3, as stated, fails.  A recipient who already has a sharing of the
    workflow gets no new row: the row that exists takes the new role.  A
    recipient who is in the list twice makes the save fail, and then no
    row is inserted for anyone. *)
Lemma share_updates_or_fails :
  (result (share sampleManager invoices [bob] "r-editor") teamDb
   = inr [mkShared "w1" "u2" "r-editor"]
   /\ sharedWorkflows (state_after (share sampleManager invoices [bob] "r-editor") teamDb)
      = [mkShared "w1" "u2" "r-editor"; mkShared "w1" "u3" "r-editor";
         mkShared "w2" "u1" "r-owner"]
   /\ length (sharedWorkflows
                (state_after (share sampleManager invoices [bob] "r-editor") teamDb))
      <> length (sharedWorkflows teamDb)
         + length (filter (fun u => negb (isPending u)) [bob]))
  /\ (result (share sampleManager invoices [alice; alice] "r-editor") teamDb
      = inl ConstraintViolated
      /\ state_after (share sampleManager invoices [alice; alice] "r-editor") teamDb
         = teamDb).
Proof.
  split; [split; [reflexivity | split; [reflexivity | vm_compute; discriminate]]|].
  split; reflexivity.
Qed.

(** C3, amended: [share] never creates a row for a pending user, and it
    saves exactly one entity per non-pending user of the list, in order,
    each with the workflow's id, that user's id and the given role id.
    When the workflow, the role and the non-pending users exist, the
    non-pending users have distinct ids and none of them has a sharing of
    the workflow yet, the save raises no error and inserts exactly one row
    per non-pending user, whatever pending users the list holds; nothing
    else changes. *)
Theorem share_one_row_per_active_user (transaction : EntityManager)
  (workflow : WorkflowEntity) (recipients : list User) (role : string) (db : Database) :
  (forall created,
      result (share transaction workflow recipients role) db = inr created ->
      created = map (fun u => mkShared (workflow_id workflow) (user_id u) role)
                    (filter (fun u => negb (isPending u)) recipients))
  /\ (forall r,
        In r (sharedWorkflows (state_after (share transaction workflow recipients role) db)) ->
        (exists r0, In r0 (sharedWorkflows db)
                    /\ workflowId r0 = workflowId r /\ userId r0 = userId r)
        \/ (exists u, In u recipients /\ isPending u = false
                      /\ r = mkShared (workflow_id workflow) (user_id u) role))
  /\ (workflow_exists db (workflow_id workflow) = true ->
      role_exists db role = true ->
      (forall u, In u recipients -> isPending u = false ->
                 user_exists db (user_id u) = true) ->
      (forall u r, In u recipients -> isPending u = false -> In r (sharedWorkflows db) ->
                   workflowId r = workflow_id workflow -> userId r <> user_id u) ->
      NoDup (map (fun u => user_id u) (filter (fun u => negb (isPending u)) recipients)) ->
      result (share transaction workflow recipients role) db
      = inr (map (fun u => mkShared (workflow_id workflow) (user_id u) role)
                 (filter (fun u => negb (isPending u)) recipients))
      /\ sharedWorkflows (state_after (share transaction workflow recipients role) db)
         = sharedWorkflows db
           ++ map (fun u => mkShared (workflow_id workflow) (user_id u) role)
                  (filter (fun u => negb (isPending u)) recipients)
      /\ length (sharedWorkflows
                   (state_after (share transaction workflow recipients role) db))
         = length (sharedWorkflows db)
           + length (filter (fun u => negb (isPending u)) recipients)
      /\ users (state_after (share transaction workflow recipients role) db) = users db
      /\ roles (state_after (share transaction workflow recipients role) db) = roles db
      /\ workflows (state_after (share transaction workflow recipients role) db)
         = workflows db).
Proof.
  split; [|split].
  - intros created H.
    destruct (share_cases transaction workflow recipients role db) as [[R _] | [R _]];
      rewrite R in H; [injection H as <-; reflexivity | discriminate].
  - intros r Hr.
    destruct (share_cases transaction workflow recipients role db) as [[_ S] | [_ S]];
      rewrite S in Hr.
    + cbn [sharedWorkflows with_sharedWorkflows] in Hr. apply in_app_or in Hr.
      destruct Hr as [Hr | Hr].
      * apply in_map_iff in Hr. destruct Hr as [r0 [<- Hr0]].
        left. exists r0. split; [assumption|].
        destruct (saved_over_key (share_batch workflow recipients role) r0) as [A B].
        now rewrite A, B.
      * right. apply filter_In in Hr. destruct Hr as [Hr _].
        now apply active_user_row.
    + left. now exists r.
  - intros Hw Hro Hu Hfresh Hnd. unfold result, state_after.
    rewrite (share_inserts transaction workflow recipients role db Hw Hro Hu Hfresh Hnd).
    cbn [fst snd sharedWorkflows with_sharedWorkflows users roles workflows].
    unfold share_batch. rewrite length_app, length_map. repeat split.
Qed.

Lemma share_one_row_per_active_user_sample :
  result (share sampleManager invoices [alice; carol] "r-editor") editorOnlyDb
  = inr [mkShared "w1" "u1" "r-editor"]
  /\ sharedWorkflows
       (state_after (share sampleManager invoices [alice; carol] "r-editor") editorOnlyDb)
     = [mkShared "w1" "u2" "r-editor"; mkShared "w1" "u1" "r-editor"].
Proof.
  assert (Hw : workflow_exists editorOnlyDb (workflow_id invoices) = true) by reflexivity.
  assert (Hr : role_exists editorOnlyDb "r-editor" = true) by reflexivity.
  assert (Hu : forall u, In u [alice; carol] -> isPending u = false ->
                         user_exists editorOnlyDb (user_id u) = true).
  { intros u [<- | [<- | []]]; intros; try discriminate; reflexivity. }
  assert (Hf : forall u r, In u [alice; carol] -> isPending u = false ->
                           In r (sharedWorkflows editorOnlyDb) ->
                           workflowId r = workflow_id invoices -> userId r <> user_id u).
  { intros u r [<- | [<- | []]] Hp [<- | []]; discriminate. }
  assert (Hn : NoDup (map (fun u => user_id u)
                          (filter (fun u => negb (isPending u)) [alice; carol]))).
  { repeat constructor. simpl. tauto. }
  destruct (share_one_row_per_active_user sampleManager invoices [alice; carol]
              "r-editor" editorOnlyDb) as [_ [_ H]].
  destruct (H Hw Hr Hu Hf Hn) as [R [T _]].
  split; [exact R | exact T].
Defined.
(** ** Ownership transfer *)

(** C4, as stated, fails: a row of another user whose role is not the
    given one is left as it is, where the claim has it moved to the user
    and the role. *)
Lemma makeOwnerOfAllWorkflows_skips_other_roles :
  sharedWorkflows
    (state_after (makeOwnerOfAllWorkflows sampleRepository alice ownerRole) editorOnlyDb)
  = [mkShared "w1" "u2" "r-editor"]
  /\ reassign_all_foreign_rows alice ownerRole (sharedWorkflows editorOnlyDb)
     = [mkShared "w1" "u1" "r-owner"]
  /\ sharedWorkflows
       (state_after (makeOwnerOfAllWorkflows sampleRepository alice ownerRole) editorOnlyDb)
     <> reassign_all_foreign_rows alice ownerRole (sharedWorkflows editorOnlyDb).
Proof.
  split; [reflexivity|]. split; [reflexivity|].
  vm_compute. discriminate.
Qed.

(** [makeOwnerOfAllWorkflows] evaluated. *)
Lemma makeOwnerOfAllWorkflows_run (this : SharedWorkflowRepository) (user : User)
  (role : Role) (db : Database) :
  makeOwnerOfAllWorkflows this user role db
  = if transfer_succeeds user role db
    then (inr (mkUpdateResult
                 (length (filter (taken_over user role) (sharedWorkflows db)))),
          with_sharedWorkflows db (transferred user role (sharedWorkflows db)))
    else (inl ConstraintViolated, db).
Proof.
  unfold makeOwnerOfAllWorkflows, update, em_update.
  set (hit := matches (undefinedCriterion (manager this)) db
                (makeOwnerOfAllWorkflows_criteria user role)).
  assert (H : forall r, hit r = taken_over user role r).
  { intros r. unfold hit, makeOwnerOfAllWorkflows_criteria, set_roleId, set_userId.
    cbn [w_workflowId w_userId w_roleId w_workflow w_user w_role empty_where].
    now rewrite matches_columns. }
  assert (A : forall r, hit r = true ->
                        assign (mkPartial (Some user) None) r
                        = mkShared (workflowId r) (user_id user) (role_id role)).
  { intros r Hr. rewrite H in Hr. unfold taken_over in Hr.
    apply andb_true_iff in Hr. destruct Hr as [_ Hr]. apply String.eqb_eq in Hr.
    unfold assign. simpl. now rewrite Hr. }
  assert (C : map (fun r => if hit r then assign (mkPartial (Some user) None) r else r)
                  (sharedWorkflows db)
              = transferred user role (sharedWorkflows db)).
  { apply map_ext. intros r. destruct (hit r) eqn:Hr.
    - rewrite (A r Hr). now rewrite <- H, Hr.
    - now rewrite <- H, Hr. }
  rewrite C.
  assert (F : forallb
                (fun r => negb (hit r)
                          || (assigned_references_hold db (mkPartial (Some user) None)
                              && Nat.eqb (occurrences
                                            (assign (mkPartial (Some user) None) r)
                                            (transferred user role (sharedWorkflows db)))
                                         1))
                (sharedWorkflows db)
              = transfer_succeeds user role db).
  { unfold transfer_succeeds. apply forallb_pointwise. intros r.
    destruct (hit r) eqn:Hr.
    - rewrite (A r Hr), <- H, Hr. unfold assigned_references_hold. simpl.
      now rewrite andb_true_r.
    - now rewrite <- H, Hr. }
  rewrite F, (filter_ext _ _ H). reflexivity.
Qed.

(** C4, amended: [makeOwnerOfAllWorkflows user role] updates exactly the
    rows whose [userId] differs from the user's id and whose [roleId] is
    the id of the given role; it sets their [userId] to the user's id, so
    that each of them then carries the given user and role; every other
    row, and every other table, is unchanged.  When a row it would change
    cannot be given to the user, because the user is not in the user table
    or because another row would have the same workflow and user, the
    update raises and changes nothing. *)
Theorem makeOwnerOfAllWorkflows_moves_foreign_rows_of_role
  (this : SharedWorkflowRepository) (user : User) (role : Role) (db : Database) :
  (transfer_succeeds user role db = true ->
   result (makeOwnerOfAllWorkflows this user role) db
   = inr (mkUpdateResult
            (length (filter (fun r => negb (String.eqb (userId r) (user_id user))
                                      && String.eqb (roleId r) (role_id role))
                            (sharedWorkflows db))))
   /\ sharedWorkflows (state_after (makeOwnerOfAllWorkflows this user role) db)
      = map (fun r =>
               if negb (String.eqb (userId r) (user_id user))
                  && String.eqb (roleId r) (role_id role)
               then mkShared (workflowId r) (user_id user) (role_id role)
               else r)
            (sharedWorkflows db)
   /\ users (state_after (makeOwnerOfAllWorkflows this user role) db) = users db
   /\ roles (state_after (makeOwnerOfAllWorkflows this user role) db) = roles db
   /\ workflows (state_after (makeOwnerOfAllWorkflows this user role) db) = workflows db)
  /\ (transfer_succeeds user role db = false ->
      result (makeOwnerOfAllWorkflows this user role) db = inl ConstraintViolated
      /\ state_after (makeOwnerOfAllWorkflows this user role) db = db).
Proof.
  unfold result, state_after. rewrite makeOwnerOfAllWorkflows_run.
  split; intros H; rewrite H; repeat split.
Qed.

Lemma makeOwnerOfAllWorkflows_moves_foreign_rows_of_role_sample :
  (sharedWorkflows
     (state_after (makeOwnerOfAllWorkflows sampleRepository alice ownerRole) teamDb)
   = [mkShared "w1" "u1" "r-owner"; mkShared "w1" "u3" "r-editor";
      mkShared "w2" "u1" "r-owner"])
  /\ (result (makeOwnerOfAllWorkflows sampleRepository carol ownerRole) teamDb
      = inl ConstraintViolated
      /\ state_after (makeOwnerOfAllWorkflows sampleRepository carol ownerRole) teamDb
         = teamDb).
Proof.
  split.
  - destruct (makeOwnerOfAllWorkflows_moves_foreign_rows_of_role
                sampleRepository alice ownerRole teamDb) as [H _].
    destruct (H eq_refl) as [_ [T _]]. exact T.
  - destruct (makeOwnerOfAllWorkflows_moves_foreign_rows_of_role
                sampleRepository carol ownerRole teamDb) as [_ H].
    exact (H eq_refl).
Defined.

(** ** Sharing, then reading back *)

Lemma findWithFields_rows (workflowIds fields : list string) (db : Database) :
  result (findWithFields workflowIds fields) db
  = map (project fields)
        (filter (fun r => mem (workflowId r) workflowIds) (sharedWorkflows db)).
Proof.
  unfold result, findWithFields, find, rows. simpl.
  erewrite filter_ext; [reflexivity|].
  intros r. unfold matches. simpl. now rewrite !andb_true_r.
Qed.

(** Whenever [share] returns, every entity of its batch is a row of the
    table: inserted, or written over the row that had its key. *)
Lemma share_stores_batch (transaction : EntityManager) (workflow : WorkflowEntity)
  (recipients : list User) (role : string) (db : Database)
  (created : list SharedWorkflow) (e : SharedWorkflow) :
  result (share transaction workflow recipients role) db = inr created ->
  In e (share_batch workflow recipients role) ->
  In e (sharedWorkflows (state_after (share transaction workflow recipients role) db)).
Proof.
  intros Hok He.
  destruct (share_cases transaction workflow recipients role db) as [[_ S] | [R _]];
    [|rewrite R in Hok; discriminate].
  rewrite S. cbn [sharedWorkflows with_sharedWorkflows]. apply in_or_app.
  destruct (existsb (same_key e) (sharedWorkflows db)) eqn:St.
  - left. apply existsb_exists in St. destruct St as [r [Hr Hk]].
    rewrite same_key_sym in Hk.
    destruct (@saved_over_touched _ r e He Hk) as [e' [He' [_ Hs]]].
    apply in_map_iff. exists r. split; [|assumption]. rewrite Hs.
    apply same_key_iff in Hk. destruct Hk as [Hw Hu].
    apply active_user_row in He. destruct He as [u [_ [_ ->]]].
    apply active_user_row in He'. destruct He' as [u' [_ [_ ->]]].
    simpl in *. now rewrite Hw, Hu.
  - right. apply filter_In. split; [assumption|]. now rewrite St.
Qed.

(** C5: whenever [share transaction workflow recipients role] returns its
    created entities, then for every non-pending user of the list the
    entity created for that user is among them, and
    [findWithFields workflowIds fields] afterwards returns its row (the
    selected columns) whenever the workflow's id is among [workflowIds];
    [fields] names columns of the entity. *)
Theorem share_then_findWithFields (transaction : EntityManager)
  (workflow : WorkflowEntity) (recipients : list User) (role : string)
  (workflowIds fields : list string) (db : Database) (u : User)
  (created : list SharedWorkflow) :
  result (share transaction workflow recipients role) db = inr created ->
  In u recipients ->
  isPending u = false ->
  In (workflow_id workflow) workflowIds ->
  Forall (fun f => In f entity_columns) fields ->
  In (mkShared (workflow_id workflow) (user_id u) role) created
  /\ In (project fields (mkShared (workflow_id workflow) (user_id u) role))
        (result (findWithFields workflowIds fields)
                (state_after (share transaction workflow recipients role) db)).
Proof.
  intros Hok Hin Hp Hw _.
  assert (He : In (mkShared (workflow_id workflow) (user_id u) role)
                  (share_batch workflow recipients role)).
  { apply active_user_row. now exists u. }
  split.
  - destruct (share_cases transaction workflow recipients role db) as [[R _] | [R _]];
      rewrite R in Hok; [injection Hok as <-; exact He | discriminate].
  - rewrite findWithFields_rows. apply in_map. apply filter_In. split.
    + eapply share_stores_batch; eassumption.
    + simpl. now apply mem_In.
Qed.

Lemma share_then_findWithFields_sample :
  result (share sampleManager invoices [alice; carol] "r-editor") emptyDb
  = inr [mkShared "w1" "u1" "r-editor"]
  /\ In (mkShared "w1" "u1" "r-editor") [mkShared "w1" "u1" "r-editor"]
  /\ In (project ["workflowId"; "userId"] (mkShared "w1" "u1" "r-editor"))
        (result (findWithFields ["w1"] ["workflowId"; "userId"])
                (state_after (share sampleManager invoices [alice; carol] "r-editor") emptyDb)).
Proof.
  split; [reflexivity|].
  apply (@share_then_findWithFields sampleManager invoices [alice; carol] "r-editor"
           ["w1"] ["workflowId"; "userId"] emptyDb alice
           [mkShared "w1" "u1" "r-editor"]).
  - reflexivity.
  - simpl; auto.
  - reflexivity.
  - simpl; auto.
  - repeat (constructor; [unfold entity_columns; simpl; tauto|]). constructor.
Defined.

(** ** Reads leave the database alone *)

(** C9: every read method of the repository returns the database it was
    given: the state after the call is the state before it. *)
Theorem reads_leave_database_unchanged (db : Database) :
  (forall id user, state_after (hasAccess id user) db = db)
  /\ (forall workflowIds, state_after (getSharedWorkflowIds workflowIds) db = db)
  /\ (forall workflowIds, state_after (findByWorkflowIds workflowIds) db = db)
  /\ (forall id user scope roles extraRelations,
        state_after (findSharing id user scope roles extraRelations) db = db)
  /\ (forall user id options relations,
        state_after (getSharing user id options relations) db = db)
  /\ (forall user options, state_after (getSharedWorkflows user options) db = db)
  /\ (forall workflowIds fields, state_after (findWithFields workflowIds fields) db = db)
  /\ (forall user roles, state_after (findWorkflowIdsByUser user roles) db = db).
Proof.
  repeat split; intros; reflexivity.
Qed.

(** ** Deletion by workflow ids *)

(** The ids given to [deleteByIds] are compared with the [workflowId]
    column; with a user supplied, exactly that user's rows for the listed
    workflows go, whatever the entity manager's settings. *)
Lemma deleteByIds_of_user (transaction : EntityManager) (ids : list string)
  (user : User) (db : Database) :
  sharedWorkflows (state_after (deleteByIds transaction ids (Some user)) db)
  = filter (fun r => negb (mem (workflowId r) ids && String.eqb (userId r) (user_id user)))
           (sharedWorkflows db).
Proof.
  unfold state_after, deleteByIds, em_delete. simpl.
  apply filter_ext. intros r. unfold matches. simpl.
  now rewrite !andb_true_r.
Qed.

(** Rows of workflows outside the list survive every call. *)
Lemma deleteByIds_keeps_other_workflows (transaction : EntityManager) (ids : list string)
  (user : option User) (db : Database) (r : SharedWorkflow) :
  In r (sharedWorkflows db) ->
  ~ In (workflowId r) ids ->
  In r (sharedWorkflows (state_after (deleteByIds transaction ids user) db)).
Proof.
  intros Hin Hout. unfold state_after, deleteByIds, em_delete. simpl.
  apply filter_In. split; [assumption|].
  apply negb_true_iff. unfold matches. simpl.
  destruct (existsb (String.eqb (workflowId r)) ids) eqn:E; [|reflexivity].
  exfalso. apply Hout. now apply mem_In.
Qed.

(** With the user left out, an entity manager that skips [undefined]
    criteria deletes the listed workflows' rows of all users. *)
Lemma deleteByIds_without_user_skipped (ids : list string) (db : Database) :
  sharedWorkflows (state_after (deleteByIds (mkEntityManager SkipUndefined) ids None) db)
  = filter (fun r => negb (mem (workflowId r) ids)) (sharedWorkflows db).
Proof.
  unfold state_after, deleteByIds, em_delete. simpl.
  apply filter_ext. intros r. unfold matches. simpl.
  now rewrite !andb_true_r.
Qed.

(** With the user left out, an entity manager that binds [undefined] as a
    null parameter deletes nothing. *)
Lemma deleteByIds_without_user_bound (ids : list string) (db : Database) :
  sharedWorkflows (state_after (deleteByIds (mkEntityManager BindAsNull) ids None) db)
  = sharedWorkflows db.
Proof.
  unfold state_after, deleteByIds, em_delete. simpl.
  rewrite <- (filter_ext (fun _ => true)).
  - induction (sharedWorkflows db) as [|r t IH]; simpl; [reflexivity | now rewrite IH].
  - intros r. unfold matches. simpl. now rewrite !andb_false_r.
Qed.

(** C10: with the user left out, [deleteByIds] hands the mapper a [user]
    criterion whose value is [undefined]; the mapper binds it as a null
    parameter, which no row equals, so the rows of the listed workflows
    are not deleted: here both sharings of [w1] stay. *)
Theorem deleteByIds_without_user_deletes_nothing :
  sharedWorkflows (state_after (deleteByIds sampleManager ["w1"] None) teamDb)
  = [mkShared "w1" "u2" "r-owner"; mkShared "w1" "u3" "r-editor";
     mkShared "w2" "u1" "r-owner"]
  /\ deleted (result (deleteByIds sampleManager ["w1"] None) teamDb) = 0
  /\ sharedWorkflows (state_after (deleteByIds sampleManager ["w1"] (Some bob)) teamDb)
     = [mkShared "w1" "u3" "r-editor"; mkShared "w2" "u1" "r-owner"].
Proof. repeat split. Qed.

(** ** The cloud-plan client *)

(** C8: under every transport and in every state of the network, each of
    [getCurrentPlan], [getCurrentUsage] and [getAdminPanelLoginCode]
    issues exactly one GET, to its endpoint at the context's base URL, and
    settles as that request settles: same body, same rejection, same
    network state afterwards. *)
Theorem cloudPlans_pass_through (Err Body Net : Type)
  (transport : CloudPlans.Transport Err Body Net)
  (context : CloudPlans.IRestApiContext) (n : Net) :
  (CloudPlans.run transport (CloudPlans.getCurrentPlan Err Body context) n
   = transport (CloudPlans.baseUrl context) "/admin/cloud-plan" n
   /\ CloudPlans.requests transport (CloudPlans.getCurrentPlan Err Body context) n
      = [(CloudPlans.baseUrl context, "/admin/cloud-plan")])
  /\ (CloudPlans.run transport (CloudPlans.getCurrentUsage Err Body context) n
      = transport (CloudPlans.baseUrl context) "/cloud/limits" n
      /\ CloudPlans.requests transport (CloudPlans.getCurrentUsage Err Body context) n
         = [(CloudPlans.baseUrl context, "/cloud/limits")])
  /\ (CloudPlans.run transport (CloudPlans.getAdminPanelLoginCode Err Body context) n
      = transport (CloudPlans.baseUrl context) "/admin/auth/login/code" n
      /\ CloudPlans.requests transport (CloudPlans.getAdminPanelLoginCode Err Body context) n
         = [(CloudPlans.baseUrl context, "/admin/auth/login/code")])
  /\ (forall reason,
        (fst (CloudPlans.run transport (CloudPlans.getCurrentPlan Err Body context) n)
         = CloudPlans.Rejected Body reason
         <-> fst (transport (CloudPlans.baseUrl context) "/admin/cloud-plan" n)
             = CloudPlans.Rejected Body reason)
        /\ (fst (CloudPlans.run transport (CloudPlans.getCurrentUsage Err Body context) n)
            = CloudPlans.Rejected Body reason
            <-> fst (transport (CloudPlans.baseUrl context) "/cloud/limits" n)
                = CloudPlans.Rejected Body reason)
        /\ (fst (CloudPlans.run transport
                   (CloudPlans.getAdminPanelLoginCode Err Body context) n)
            = CloudPlans.Rejected Body reason
            <-> fst (transport (CloudPlans.baseUrl context) "/admin/auth/login/code" n)
                = CloudPlans.Rejected Body reason)).
Proof.
  assert (R : forall endpoint,
             CloudPlans.run transport
               (CloudPlans.get Err Body (CloudPlans.baseUrl context) endpoint) n
             = transport (CloudPlans.baseUrl context) endpoint n).
  { intros endpoint. unfold CloudPlans.get. simpl.
    now destruct (transport (CloudPlans.baseUrl context) endpoint n). }
  assert (Q : forall endpoint,
             CloudPlans.requests transport
               (CloudPlans.get Err Body (CloudPlans.baseUrl context) endpoint) n
             = [(CloudPlans.baseUrl context, endpoint)]).
  { intros endpoint. unfold CloudPlans.get. simpl.
    now destruct (transport (CloudPlans.baseUrl context) endpoint n). }
  unfold CloudPlans.getCurrentPlan, CloudPlans.getCurrentUsage,
    CloudPlans.getAdminPanelLoginCode.
  rewrite !R, !Q. repeat split; auto.
Qed.

(** ** Sample runs *)

Example hasAccess_of_sharee :
  result (hasAccess "w1" bob) editorOnlyDb = true
  /\ result (hasAccess "w1" alice) editorOnlyDb = false
  /\ result (hasAccess "w1" instanceOwner) editorOnlyDb = true
  /\ result (hasAccess "w2" instanceOwner) editorOnlyDb = false.
Proof. repeat split. Qed.

Example share_skips_pending_user :
  result (share sampleManager invoices [alice; carol; bob] "r-owner") emptyDb
  = inr [mkShared "w1" "u1" "r-owner"; mkShared "w1" "u2" "r-owner"].
Proof. reflexivity. Qed.

Example findWorkflowIdsByUser_with_empty_roles :
  result (findWorkflowIdsByUser bob None) editorOnlyDb = [Some "w1"]
  /\ result (findWorkflowIdsByUser bob (Some [editorRole])) editorOnlyDb = [Some "w1"]
  /\ result (findWorkflowIdsByUser bob (Some [ownerRole])) editorOnlyDb = []
  /\ result (findWorkflowIdsByUser bob (Some [])) editorOnlyDb = []
  /\ result (findWorkflowIdsByUser alice None) editorOnlyDb = []
  /\ result (findWorkflowIdsByUser instanceOwner None) editorOnlyDb = [Some "w1"].
Proof. repeat split. Qed.

Example getSharing_of_foreign_workflow :
  result (getSharing alice "w1" DisallowGlobalScope None) editorOnlyDb = None
  /\ result (getSharing instanceOwner "w1" DisallowGlobalScope None) editorOnlyDb = None
  /\ result (getSharing instanceOwner "w1" (AllowGlobalScope "workflow:read") None)
             editorOnlyDb
     = Some (mkLoaded (Some "w1") (Some "u2") (Some "r-editor")
                      (Some (Some invoices)) None None).
Proof. repeat split. Qed.

Example makeOwnerOfAllWorkflows_moves_editor_rows :
  sharedWorkflows
    (state_after (makeOwnerOfAllWorkflows sampleRepository alice editorRole) editorOnlyDb)
  = [mkShared "w1" "u1" "r-editor"].
Proof. reflexivity. Qed.

Example deleteByIds_of_another_user :
  sharedWorkflows (state_after (deleteByIds sampleManager ["w1"] (Some alice)) editorOnlyDb)
  = [mkShared "w1" "u2" "r-editor"]
  /\ sharedWorkflows (state_after (deleteByIds sampleManager ["w1"] (Some bob)) editorOnlyDb)
     = [].
Proof. split; reflexivity. Qed.

(** * Further properties of the repository *)

(** ** Evaluations *)

(** [hasAccess] evaluated: some row grants the access. *)
Lemma hasAccess_eval (id : string) (user : User) (db : Database) :
  result (hasAccess id user) db = existsb (grants_access user id) (sharedWorkflows db).
Proof.
  unfold result, hasAccess, exist. simpl. rewrite hasAccess_where_shape.
  apply existsb_pointwise. intros r. rewrite matches_columns. unfold grants_access.
  destruct (hasGlobalScope user "workflow:read"); simpl; now rewrite ?andb_true_r.
Qed.

Lemma getSharedWorkflowIds_eval (ids : list string) (db : Database) :
  result (getSharedWorkflowIds ids) db
  = map (fun r => Some (workflowId r))
        (filter (fun r => mem (workflowId r) ids) (sharedWorkflows db)).
Proof.
  unfold result, getSharedWorkflowIds, bind, find, ret, rows. simpl.
  rewrite map_map. simpl. erewrite filter_ext; [reflexivity|].
  intros r. unfold matches. simpl. now rewrite !andb_true_r.
Qed.

Lemma findWorkflowIdsByUser_eval (user : User) (rs : option (list Role)) (db : Database) :
  result (findWorkflowIdsByUser user rs) db
  = map (fun r => Some (workflowId r))
        (filter (visible_with_role user rs) (sharedWorkflows db)).
Proof.
  unfold result, findWorkflowIdsByUser, bind, find, ret, rows. simpl.
  rewrite map_map. simpl.
  erewrite filter_ext; [reflexivity|].
  intros r. unfold findWorkflowIdsByUser_where, visible_with_role, matches.
  destruct (hasGlobalScope user "workflow:read"), rs as [rs|]; simpl;
    rewrite ?andb_true_r, ?existsb_role_ids; reflexivity.
Qed.

(** ** Listings and lookups *)

(** X1: [getSharedWorkflowIds] returns a defined id for every entry, and an
    id is returned exactly when it is one of the ids asked for and some
    sharing row has it. *)
Theorem getSharedWorkflowIds_asked_and_shared (ids : list string) (db : Database) :
  (forall id, In (Some id) (result (getSharedWorkflowIds ids) db) <->
              In id ids /\ exists r, In r (sharedWorkflows db) /\ workflowId r = id)
  /\ ~ In None (result (getSharedWorkflowIds ids) db)
  /\ length (result (getSharedWorkflowIds ids) db)
     = length (filter (fun r => mem (workflowId r) ids) (sharedWorkflows db)).
Proof.
  rewrite getSharedWorkflowIds_eval. split; [|split].
  - intros id. rewrite in_map_iff. split.
    + intros [r [E Hr]]. injection E as <-. apply filter_In in Hr.
      destruct Hr as [Hin Hm]. apply mem_In in Hm. split; [assumption|]. now exists r.
    + intros [Hid [r [Hin E]]]. exists r. split; [now rewrite E|].
      apply filter_In. split; [assumption|]. apply mem_In. now rewrite E.
  - rewrite in_map_iff. intros [r [E _]]. discriminate.
  - apply length_map.
Qed.

(** X2: [hasAccess workflowId user] is true exactly when [getSharing] for
    the same user and workflow, with the global scope [workflow:read]
    allowed, finds a sharing, whatever relations are asked for. *)
Theorem hasAccess_iff_getSharing_finds (id : string) (user : User)
  (relations : option (list string)) (db : Database) :
  result (hasAccess id user) db = true <->
  result (getSharing user id (AllowGlobalScope "workflow:read") relations) db <> None.
Proof.
  assert (W : getSharing_where user id (AllowGlobalScope "workflow:read")
              = hasAccess_where id user).
  { rewrite getSharing_where_shape, hasAccess_where_shape.
    now destruct (hasGlobalScope user "workflow:read"). }
  unfold result, getSharing, findOne, hasAccess, exist, rows. simpl.
  rewrite W. symmetry. apply hd_error_map_filter.
Qed.

(** X3: without a role restriction, the ids that [findWorkflowIdsByUser]
    lists for a user are exactly the workflows to which [hasAccess] admits
    that user. *)
Theorem findWorkflowIdsByUser_lists_accessible (user : User) (id : string) (db : Database) :
  In (Some id) (result (findWorkflowIdsByUser user None) db) <->
  result (hasAccess id user) db = true.
Proof.
  rewrite findWorkflowIdsByUser_eval, hasAccess_eval, in_map_iff, existsb_exists.
  unfold visible_with_role, grants_access. split.
  - intros [r [E Hr]]. injection E as <-. apply filter_In in Hr.
    destruct Hr as [Hin Hv]. exists r. split; [assumption|].
    rewrite andb_true_r in Hv. now rewrite String.eqb_refl, Hv.
  - intros [r [Hin Hg]]. apply andb_true_iff in Hg. destruct Hg as [Hw Hv].
    apply String.eqb_eq in Hw. exists r. split; [now rewrite Hw|].
    apply filter_In. split; [assumption|]. now rewrite andb_true_r.
Qed.

(** X4: a role restriction only narrows the listing of
    [findWorkflowIdsByUser]: every id listed with [roles] given is listed
    without it. *)
Theorem findWorkflowIdsByUser_roles_narrow (user : User) (rs : list Role) (db : Database) :
  incl (result (findWorkflowIdsByUser user (Some rs)) db)
       (result (findWorkflowIdsByUser user None) db).
Proof.
  rewrite !findWorkflowIdsByUser_eval. intros x Hx.
  apply in_map_iff in Hx. destruct Hx as [r [E Hr]].
  apply in_map_iff. exists r. split; [assumption|].
  apply filter_In in Hr. destruct Hr as [Hin Hv]. apply filter_In. split; [assumption|].
  unfold visible_with_role in *. apply andb_true_iff in Hv. destruct Hv as [Hv _].
  now rewrite Hv.
Qed.

(** X5: an empty list is a restriction that nothing satisfies, not the
    absence of a restriction: with an empty list of workflow ids
    [getSharedWorkflowIds], [findByWorkflowIds], [findWithFields] and
    [getSharedWorkflows] return nothing, and with an empty list of roles
    [findSharing] finds nothing and [findWorkflowIdsByUser] lists nothing. *)
Theorem empty_list_matches_nothing (db : Database) :
  result (getSharedWorkflowIds []) db = []
  /\ result (findByWorkflowIds []) db = []
  /\ (forall fields, result (findWithFields [] fields) db = [])
  /\ (forall user relations,
        result (getSharedWorkflows user (mkGetSharedWorkflowsOptions relations (Some []))) db
        = [])
  /\ (forall id user scope extraRelations,
        result (findSharing id user scope (Some []) extraRelations) db = None)
  /\ (forall user, result (findWorkflowIdsByUser user (Some [])) db = []).
Proof.
  split; [|split; [|split; [|split; [|split]]]].
  - rewrite getSharedWorkflowIds_eval. now rewrite filter_none.
  - unfold result, findByWorkflowIds, find, rows. simpl. now rewrite filter_none.
  - intros fields. unfold result, findWithFields, find, rows. simpl.
    now rewrite filter_none.
  - intros user relations. unfold result, getSharedWorkflows, find, rows.
    cbn [fst fo_where]. rewrite filter_none; [reflexivity|].
    intros r _. rewrite getSharedWorkflows_where_shape, matches_columns.
    reflexivity.
  - intros id user scope extraRelations.
    unfold result, findSharing, findOne, rows. cbn [fst fo_where].
    rewrite filter_none; [reflexivity|].
    intros r _. rewrite findSharing_where_shape. unfold matches. simpl.
    destruct (joined_role db r); simpl; now rewrite ?andb_false_r.
  - intros user. rewrite findWorkflowIdsByUser_eval. rewrite filter_none; [reflexivity|].
    intros r _. unfold visible_with_role. simpl. apply andb_false_r.
Qed.

(** X6: whatever [findSharing] finds is a sharing of the workflow asked
    for, with that workflow and its role loaded; when [roles] is given,
    the name of the loaded role is one of them. *)
Theorem findSharing_finds_requested_workflow (id : string) (user : User) (scope : Scope)
  (names extraRelations : option (list string)) (db : Database) (f : Loaded) :
  result (findSharing id user scope names extraRelations) db = Some f ->
  l_workflowId f = Some id
  /\ (exists x, l_workflow f = Some (Some x) /\ workflow_id x = id)
  /\ l_role f <> None
  /\ (forall allowed, names = Some allowed ->
        exists x, l_role f = Some (Some x) /\ In (role_name x) allowed).
Proof.
  intros H. apply findOne_found in H. destruct H as [r [_ [Hm ->]]].
  simpl in Hm. rewrite findSharing_where_shape in Hm.
  unfold matches in Hm. cbn [w_workflowId w_userId w_roleId w_workflow w_user w_role] in Hm.
  rewrite !andb_true_iff in Hm. destruct Hm as [[[[[_ _] _] Hw] _] Hr].
  assert (Rw : requested (Some (findSharing_relations extraRelations)) "workflow" = true)
    by now destruct extraRelations.
  assert (Rr : requested (Some (findSharing_relations extraRelations)) "role" = true)
    by now destruct extraRelations.
  unfold load. cbn [l_workflowId l_workflow l_role fo_select fo_relations selected].
  rewrite Rw, Rr. unfold matches_workflow in Hw.
  destruct (joined_workflow db r) as [x|] eqn:J; [|discriminate].
  apply holds_equal in Hw. pose proof (joined_workflow_id _ _ J) as E.
  split; [congruence|]. split; [now exists x|]. split; [discriminate|].
  intros allowed ->. unfold matches_role in Hr.
  destruct (joined_role db r) as [y|]; [|discriminate].
  exists y. split; [reflexivity|].
  cbn [holds_opt] in Hr. rewrite andb_true_r in Hr. now apply holds_in.
Qed.

Lemma findSharing_finds_requested_workflow_sample :
  result (findSharing "w1" bob "workflow:read" (Some ["editor"]) None) editorOnlyDb
  = Some (mkLoaded (Some "w1") (Some "u2") (Some "r-editor")
                   (Some (Some invoices)) (Some (Some editorRole)) None)
  /\ l_workflowId (mkLoaded (Some "w1") (Some "u2") (Some "r-editor")
                            (Some (Some invoices)) (Some (Some editorRole)) None)
     = Some "w1".
Proof.
  split; [reflexivity|].
  apply (findSharing_finds_requested_workflow "w1" bob "workflow:read"
           (Some ["editor"]) None editorOnlyDb).
  reflexivity.
Defined.

(** X7: [getSharedWorkflows] returns exactly the rows that belong to the
    user (all rows for a global owner or admin) and, when [workflowIds] is
    given, whose workflow is one of them, each with all its columns and
    the requested relations, one entity per such row; a global owner or
    admin who gives no [workflowIds] gets one entity per row of the
    table. *)
Theorem getSharedWorkflows_rows (user : User) (options : GetSharedWorkflowsOptions)
  (db : Database) :
  (forall f,
      In f (result (getSharedWorkflows user options) db) <->
      exists r, In r (sharedWorkflows db)
                /\ (mem (role_name (globalRole user)) ["owner"; "admin"] = true
                    \/ userId r = user_id user)
                /\ (forall ids, gsw_workflowIds options = Some ids ->
                                In (workflowId r) ids)
                /\ f = load db (mkFind empty_where None (gsw_relations options)) r)
  /\ length (result (getSharedWorkflows user options) db)
     = length (filter (fun r =>
                         (mem (role_name (globalRole user)) ["owner"; "admin"]
                          || String.eqb (userId r) (user_id user))
                         && match gsw_workflowIds options with
                            | Some ids => mem (workflowId r) ids
                            | None => true
                            end)
                      (sharedWorkflows db))
  /\ (mem (role_name (globalRole user)) ["owner"; "admin"] = true
      /\ gsw_workflowIds options = None ->
      length (result (getSharedWorkflows user options) db) = length (sharedWorkflows db)).
Proof.
  rewrite getSharedWorkflows_eval. split; [|split].
  - intros f. rewrite in_map_iff. split.
    + intros [r [<- Hr]]. apply filter_In in Hr. destruct Hr as [Hin Hc].
      apply andb_true_iff in Hc. destruct Hc as [Hu Hi].
      exists r. split; [assumption|]. split; [|split; [|reflexivity]].
      * apply orb_true_iff in Hu. destruct Hu as [Hu | Hu]; [now left | right].
        now apply String.eqb_eq.
      * intros ids E. rewrite E in Hi. now apply mem_In.
    + intros [r [Hin [Hu [Hi ->]]]]. exists r. split; [reflexivity|].
      apply filter_In. split; [assumption|]. apply andb_true_iff. split.
      * apply orb_true_iff. destruct Hu as [Hu | Hu]; [now left | right].
        now apply String.eqb_eq.
      * destruct (gsw_workflowIds options) as [ids|]; [|reflexivity].
        apply mem_In. now apply Hi.
  - apply length_map.
  - intros [Ho Hn]. rewrite Ho, Hn, length_map. simpl. now rewrite filter_all.
Qed.

(** ** Sharing and access *)

Lemma new_rows_grant (workflow : WorkflowEntity) (role : string) (user : User)
  (id : string) (recipients : list User) :
  existsb (grants_access user id)
          (map (fun u => mkShared (workflow_id workflow) (user_id u) role)
               (filter (fun u => negb (isPending u)) recipients))
  = String.eqb (workflow_id workflow) id
    && existsb (fun v => negb (isPending v)
                         && (hasGlobalScope user "workflow:read"
                             || String.eqb (user_id v) (user_id user)))
               recipients.
Proof.
  induction recipients as [|v l IH]; simpl.
  - now rewrite andb_false_r.
  - destruct (isPending v); simpl; rewrite IH; [reflexivity|].
    unfold grants_access. simpl.
    destruct (String.eqb (workflow_id workflow) id); reflexivity.
Qed.

(** Access looks at the workflow and the user of a row only. *)
Lemma grants_access_by_key (user : User) (id : string) (a b : SharedWorkflow) :
  same_key a b = true -> grants_access user id a = grants_access user id b.
Proof.
  intros H. apply same_key_iff in H. destruct H as [Hw Hu].
  unfold grants_access. now rewrite Hw, Hu.
Qed.

Lemma saved_rows_grant (user : User) (id : string) (entities t : list SharedWorkflow) :
  existsb (grants_access user id) (map (saved_over entities) t)
  = existsb (grants_access user id) t.
Proof.
  rewrite existsb_mapped. apply existsb_pointwise. intros r.
  destruct (saved_over_key entities r) as [A B].
  unfold grants_access. now rewrite A, B.
Qed.

Lemma stored_rows_absorb (user : User) (id : string) (db : Database)
  (entities : list SharedWorkflow) :
  existsb (grants_access user id) (sharedWorkflows db)
  || existsb (grants_access user id) (not_stored db entities)
  = existsb (grants_access user id) (sharedWorkflows db)
    || existsb (grants_access user id) entities.
Proof.
  induction entities as [|e es IH]; [reflexivity|].
  unfold not_stored in *. simpl.
  destruct (existsb (same_key e) (sharedWorkflows db)) eqn:St; simpl.
  - destruct (grants_access user id e) eqn:G; simpl; [|exact IH].
    assert (H : existsb (grants_access user id) (sharedWorkflows db) = true).
    { apply existsb_exists in St. destruct St as [r [Hr Hk]].
      apply existsb_exists. exists r. split; [assumption|].
      now rewrite <- (@grants_access_by_key user id e r Hk). }
    now rewrite H.
  - destruct (grants_access user id e); simpl; [now rewrite !orb_true_r | exact IH].
Qed.

(** X8: after [share], a user has access to a workflow exactly when the
    user had it before, or the share succeeded, the workflow is the shared
    one and some non-pending recipient is that user (any non-pending
    recipient, for a user with the global [workflow:read] scope).  So a
    share that raises changes no access, and a share that succeeds takes
    no access away and changes none to other workflows. *)
Theorem hasAccess_after_share (transaction : EntityManager) (workflow : WorkflowEntity)
  (recipients : list User) (role : string) (id : string) (user : User) (db : Database) :
  result (hasAccess id user) (state_after (share transaction workflow recipients role) db)
  = result (hasAccess id user) db
    || (succeeded (result (share transaction workflow recipients role) db)
        && String.eqb (workflow_id workflow) id
        && existsb (fun v => negb (isPending v)
                             && (hasGlobalScope user "workflow:read"
                                 || String.eqb (user_id v) (user_id user)))
                   recipients).
Proof.
  rewrite !hasAccess_eval.
  destruct (share_cases transaction workflow recipients role db) as [[R S] | [R S]];
    rewrite R, S.
  - cbn [sharedWorkflows with_sharedWorkflows succeeded andb].
    rewrite existsb_app, saved_rows_grant, stored_rows_absorb.
    f_equal. unfold share_batch. apply new_rows_grant.
  - cbn [succeeded andb]. now rewrite orb_false_r.
Qed.

(** X9: whenever [share] returns, every non-pending user of the list has
    access to the shared workflow afterwards. *)
Theorem share_grants_access (transaction : EntityManager) (workflow : WorkflowEntity)
  (recipients : list User) (role : string) (u : User) (db : Database)
  (created : list SharedWorkflow) :
  result (share transaction workflow recipients role) db = inr created ->
  In u recipients ->
  isPending u = false ->
  result (hasAccess (workflow_id workflow) u)
         (state_after (share transaction workflow recipients role) db) = true.
Proof.
  intros Hok Hin Hp. rewrite hasAccess_eval. apply existsb_exists.
  exists (mkShared (workflow_id workflow) (user_id u) role). split.
  - eapply share_stores_batch; [eassumption|]. apply active_user_row. now exists u.
  - unfold grants_access. simpl. rewrite !String.eqb_refl. now rewrite orb_true_r.
Qed.

Lemma share_grants_access_sample :
  result (share sampleManager invoices [carol; alice] "r-editor") teamDb
  = inr [mkShared "w1" "u1" "r-editor"]
  /\ result (hasAccess (workflow_id invoices) alice) teamDb = false
  /\ result (hasAccess (workflow_id invoices) alice)
            (state_after (share sampleManager invoices [carol; alice] "r-editor") teamDb)
     = true.
Proof.
  split; [reflexivity|]. split; [reflexivity|].
  apply (@share_grants_access sampleManager invoices [carol; alice] "r-editor" alice
           teamDb [mkShared "w1" "u1" "r-editor"]);
    [reflexivity | simpl; auto | reflexivity].
Defined.

(** X11: when every user of the list is pending (in particular when the
    list is empty), [share] saves no entity, raises no error and leaves
    the database as it was. *)
Theorem share_with_pending_users_only (transaction : EntityManager)
  (workflow : WorkflowEntity) (recipients : list User) (role : string) (db : Database) :
  (forall u, In u recipients -> isPending u = true) ->
  result (share transaction workflow recipients role) db = inr []
  /\ state_after (share transaction workflow recipients role) db = db.
Proof.
  intros H. unfold result, state_after. rewrite share_is_save.
  assert (E : share_batch workflow recipients role = []).
  { unfold share_batch. rewrite filter_none; [reflexivity|].
    intros u Hu. now rewrite (H u Hu). }
  rewrite E. unfold em_save, not_stored. simpl. rewrite app_nil_r.
  rewrite map_fixed; [split; [reflexivity | apply with_sharedWorkflows_same]|].
  intros r _. reflexivity.
Qed.

Lemma share_with_pending_users_only_sample :
  result (share sampleManager invoices [carol; carol] "r-editor") editorOnlyDb = inr []
  /\ state_after (share sampleManager invoices [carol; carol] "r-editor") editorOnlyDb
     = editorOnlyDb.
Proof.
  apply (share_with_pending_users_only sampleManager invoices [carol; carol] "r-editor"
           editorOnlyDb).
  intros u [<- | [<- | []]]; reflexivity.
Defined.

(** ** Deletion and access *)

Lemma deleteByIds_table (transaction : EntityManager) (ids : list string)
  (user : option User) (db : Database) :
  sharedWorkflows (state_after (deleteByIds transaction ids user) db)
  = filter (fun r =>
              negb (mem (workflowId r) ids
                    && match user with
                       | Some u => String.eqb (userId r) (user_id u)
                       | None => undefined_holds (undefinedCriterion transaction)
                       end))
           (sharedWorkflows db).
Proof.
  unfold state_after, deleteByIds, em_delete. simpl.
  apply filter_ext. intros r. unfold matches. simpl.
  destruct user; simpl; now rewrite !andb_true_r.
Qed.

Lemma deleteByIds_state (transaction : EntityManager) (ids : list string)
  (user : option User) (db : Database) :
  state_after (deleteByIds transaction ids user) db
  = with_sharedWorkflows db
      (sharedWorkflows (state_after (deleteByIds transaction ids user) db)).
Proof. reflexivity. Qed.

(** X12: [deleteByIds] with an empty list of ids deletes nothing, with or
    without a user. *)
Theorem deleteByIds_of_no_ids (transaction : EntityManager) (user : option User)
  (db : Database) :
  state_after (deleteByIds transaction [] user) db = db
  /\ deleted (result (deleteByIds transaction [] user) db) = 0.
Proof.
  split.
  - rewrite deleteByIds_state, deleteByIds_table. simpl.
    rewrite filter_all; [apply with_sharedWorkflows_same | reflexivity].
  - unfold result, deleteByIds, em_delete. simpl.
    rewrite filter_none; [reflexivity|]. intros r _. reflexivity.
Qed.

(** X13: [deleteByIds] is idempotent: a second call with the same
    arguments changes nothing more. *)
Theorem deleteByIds_idempotent (transaction : EntityManager) (ids : list string)
  (user : option User) (db : Database) :
  state_after (deleteByIds transaction ids user)
              (state_after (deleteByIds transaction ids user) db)
  = state_after (deleteByIds transaction ids user) db.
Proof.
  rewrite (deleteByIds_state transaction ids user (state_after _ db)).
  rewrite (deleteByIds_table transaction ids user (state_after _ db)).
  rewrite (deleteByIds_state transaction ids user db) at 3.
  rewrite (deleteByIds_table transaction ids user db).
  now rewrite filter_twice.
Qed.

(** X14: after [deleteByIds] for a user and a list of workflow ids, that
    user has no access to any of the listed workflows, unless the user
    holds the global [workflow:read] scope. *)
Theorem deleteByIds_revokes_access (transaction : EntityManager) (ids : list string)
  (user : User) (id : string) (db : Database) :
  In id ids ->
  hasGlobalScope user "workflow:read" = false ->
  result (hasAccess id user) (state_after (deleteByIds transaction ids (Some user)) db)
  = false.
Proof.
  intros Hid Hs. rewrite hasAccess_eval, deleteByIds_table.
  apply not_true_is_false. intros H. apply existsb_exists in H.
  destruct H as [r [Hr Hg]]. apply filter_In in Hr. destruct Hr as [_ Hk].
  unfold grants_access in Hg. rewrite Hs in Hg. simpl in Hg.
  apply andb_true_iff in Hg. destruct Hg as [Hw Hu].
  apply String.eqb_eq in Hw. apply mem_In in Hid.
  rewrite Hw, Hid, Hu in Hk. discriminate.
Qed.

Lemma deleteByIds_revokes_access_sample :
  (In "w1" ["w1"; "w2"] /\ hasGlobalScope bob "workflow:read" = false)
  /\ result (hasAccess "w1" bob) teamDb = true
  /\ result (hasAccess "w1" bob)
            (state_after (deleteByIds sampleManager ["w1"; "w2"] (Some bob)) teamDb)
     = false.
Proof.
  split; [split; [simpl; auto | reflexivity]|].
  split; [reflexivity|].
  apply (deleteByIds_revokes_access sampleManager ["w1"; "w2"] bob "w1" teamDb);
    [simpl; auto | reflexivity].
Defined.

(** X15: [deleteByIds] never grants access: whoever has access to a
    workflow afterwards had it before. *)
Theorem deleteByIds_never_grants_access (transaction : EntityManager) (ids : list string)
  (user : option User) (id : string) (who : User) (db : Database) :
  result (hasAccess id who) (state_after (deleteByIds transaction ids user) db) = true ->
  result (hasAccess id who) db = true.
Proof.
  rewrite !hasAccess_eval, deleteByIds_table, !existsb_exists.
  intros [r [Hr Hg]]. apply filter_In in Hr. exists r. tauto.
Qed.

Lemma deleteByIds_never_grants_access_sample :
  result (hasAccess "w1" carol)
         (state_after (deleteByIds sampleManager ["w1"] (Some bob)) teamDb) = true
  /\ result (hasAccess "w1" carol) teamDb = true.
Proof.
  assert (H : result (hasAccess "w1" carol)
                (state_after (deleteByIds sampleManager ["w1"] (Some bob)) teamDb) = true)
    by reflexivity.
  split; [exact H|].
  exact (deleteByIds_never_grants_access sampleManager ["w1"] (Some bob) "w1" carol
           teamDb H).
Defined.

(** X16: sharing a workflow with one user and then deleting that user's
    sharings of the workflow gives back the database, provided the user
    had no sharing of the workflow before. *)
Theorem share_then_deleteByIds (saving deleting : EntityManager)
  (workflow : WorkflowEntity) (u : User) (role : string) (db : Database) :
  (forall r, In r (sharedWorkflows db) ->
             workflowId r = workflow_id workflow -> userId r <> user_id u) ->
  state_after (deleteByIds deleting [workflow_id workflow] (Some u))
              (state_after (share saving workflow [u] role) db)
  = db.
Proof.
  intros Hfresh.
  set (doomed := fun r : SharedWorkflow =>
                   negb (mem (workflowId r) [workflow_id workflow]
                         && String.eqb (userId r) (user_id u))).
  assert (A : filter doomed (sharedWorkflows db) = sharedWorkflows db).
  { apply filter_all. intros r Hr. unfold doomed.
    apply negb_true_iff. apply not_true_is_false. intros H.
    apply andb_true_iff in H. destruct H as [Hw Hu].
    apply mem_In in Hw. destruct Hw as [Hw | []]. apply String.eqb_eq in Hu.
    now apply (Hfresh r Hr). }
  assert (K : forall e, In e (share_batch workflow [u] role) ->
                        e = mkShared (workflow_id workflow) (user_id u) role).
  { intros e He. apply active_user_row in He.
    destruct He as [v [[<- | []] [_ ->]]]. reflexivity. }
  rewrite deleteByIds_state, deleteByIds_table. fold doomed.
  destruct (share_cases saving workflow [u] role db) as [[_ S] | [_ S]]; rewrite S.
  - cbn [sharedWorkflows with_sharedWorkflows]. rewrite filter_app.
    assert (M : map (saved_over (share_batch workflow [u] role)) (sharedWorkflows db)
                = sharedWorkflows db).
    { apply map_fixed. intros r Hr. apply saved_over_untouched. intros e He.
      rewrite (K e He). apply not_true_is_false. intros Hk.
      apply same_key_iff in Hk. simpl in Hk. destruct Hk as [Hw Hu].
      now apply (Hfresh r Hr). }
    assert (B : filter doomed (not_stored db (share_batch workflow [u] role)) = []).
    { apply filter_none. intros e He. apply filter_In in He. destruct He as [He _].
      rewrite (K e He). unfold doomed. simpl. now rewrite !String.eqb_refl. }
    rewrite M, A, B, app_nil_r. now destruct db.
  - rewrite A. apply with_sharedWorkflows_same.
Qed.

Lemma share_then_deleteByIds_sample :
  state_after (deleteByIds sampleManager [workflow_id invoices] (Some alice))
              (state_after (share sampleManager invoices [alice] "r-editor") teamDb)
  = teamDb.
Proof.
  apply (share_then_deleteByIds sampleManager sampleManager invoices alice "r-editor"
           teamDb).
  intros r [<- | [<- | [<- | []]]]; simpl; intros E; discriminate.
Defined.

(** ** Ownership transfer and access *)

(** The two outcomes of [makeOwnerOfAllWorkflows]. *)
Lemma makeOwnerOfAllWorkflows_cases (this : SharedWorkflowRepository) (user : User)
  (role : Role) (db : Database) :
  (result (makeOwnerOfAllWorkflows this user role) db
   = inr (mkUpdateResult (length (filter (taken_over user role) (sharedWorkflows db))))
   /\ state_after (makeOwnerOfAllWorkflows this user role) db
      = with_sharedWorkflows db (transferred user role (sharedWorkflows db)))
  \/ (result (makeOwnerOfAllWorkflows this user role) db = inl ConstraintViolated
      /\ state_after (makeOwnerOfAllWorkflows this user role) db = db).
Proof.
  unfold result, state_after. rewrite makeOwnerOfAllWorkflows_run.
  destruct (transfer_succeeds user role db); [left | right]; split; reflexivity.
Qed.

(** After the transfer no row satisfies the criteria any more. *)
Lemma no_row_left_to_move (user : User) (role : Role) (t : list SharedWorkflow)
  (r : SharedWorkflow) :
  In r (transferred user role t) -> taken_over user role r = false.
Proof.
  unfold transferred. intros Hr. apply in_map_iff in Hr. destruct Hr as [r0 [E Hin]].
  destruct (taken_over user role r0) eqn:C; subst r; [|exact C].
  unfold taken_over. simpl. now rewrite String.eqb_refl.
Qed.

Lemma transferred_fixed (user : User) (role : Role) (t : list SharedWorkflow) :
  (forall r, In r t -> taken_over user role r = false) -> transferred user role t = t.
Proof.
  intros H. unfold transferred. apply map_fixed. intros r Hr. now rewrite (H r Hr).
Qed.

Lemma transferred_workflowId (user : User) (role : Role) (r : SharedWorkflow) :
  workflowId (if taken_over user role r
              then mkShared (workflowId r) (user_id user) (role_id role)
              else r) = workflowId r.
Proof. now destruct (taken_over user role r). Qed.

Lemma transferred_roleId (user : User) (role : Role) (r : SharedWorkflow) :
  roleId (if taken_over user role r
          then mkShared (workflowId r) (user_id user) (role_id role)
          else r) = roleId r.
Proof.
  destruct (taken_over user role r) eqn:C; [|reflexivity].
  unfold taken_over in C. apply andb_true_iff in C. destruct C as [_ C].
  apply String.eqb_eq in C. now rewrite C.
Qed.

(** X17: whenever [makeOwnerOfAllWorkflows user role] returns, every
    sharing at the given role belongs to the user. *)
Theorem makeOwnerOfAllWorkflows_owns_all_of_role (this : SharedWorkflowRepository)
  (user : User) (role : Role) (db : Database) (res : UpdateResult) :
  result (makeOwnerOfAllWorkflows this user role) db = inr res ->
  Forall (fun r => roleId r = role_id role -> userId r = user_id user)
         (sharedWorkflows (state_after (makeOwnerOfAllWorkflows this user role) db)).
Proof.
  intros Hok.
  destruct (makeOwnerOfAllWorkflows_cases this user role db) as [[_ S] | [R _]];
    [|rewrite R in Hok; discriminate].
  rewrite S. cbn [sharedWorkflows with_sharedWorkflows].
  apply Forall_forall. intros r Hr Hro.
  pose proof (no_row_left_to_move user role _ r Hr) as K. unfold taken_over in K.
  apply String.eqb_eq in Hro. rewrite Hro, andb_true_r in K.
  apply negb_false_iff in K. now apply String.eqb_eq.
Qed.

Lemma makeOwnerOfAllWorkflows_owns_all_of_role_sample :
  result (makeOwnerOfAllWorkflows sampleRepository alice ownerRole) teamDb
  = inr (mkUpdateResult 1)
  /\ Forall (fun r => roleId r = role_id ownerRole -> userId r = user_id alice)
            (sharedWorkflows
               (state_after (makeOwnerOfAllWorkflows sampleRepository alice ownerRole)
                            teamDb)).
Proof.
  split; [reflexivity|].
  apply (@makeOwnerOfAllWorkflows_owns_all_of_role sampleRepository alice ownerRole
           teamDb (mkUpdateResult 1)).
  reflexivity.
Defined.

(** X18: [makeOwnerOfAllWorkflows] is idempotent: a second call with the
    same user and role leaves the database as the first call left it, and
    after a first call that returned it updates no row. *)
Theorem makeOwnerOfAllWorkflows_idempotent (this : SharedWorkflowRepository)
  (user : User) (role : Role) (db : Database) :
  state_after (makeOwnerOfAllWorkflows this user role)
              (state_after (makeOwnerOfAllWorkflows this user role) db)
  = state_after (makeOwnerOfAllWorkflows this user role) db
  /\ (forall res,
        result (makeOwnerOfAllWorkflows this user role) db = inr res ->
        result (makeOwnerOfAllWorkflows this user role)
               (state_after (makeOwnerOfAllWorkflows this user role) db)
        = inr (mkUpdateResult 0)).
Proof.
  destruct (makeOwnerOfAllWorkflows_cases this user role db) as [[R S] | [R S]].
  - set (moved := with_sharedWorkflows db (transferred user role (sharedWorkflows db))).
    assert (K : forall r, In r (sharedWorkflows moved) -> taken_over user role r = false).
    { intros r Hr. exact (no_row_left_to_move user role _ r Hr). }
    assert (T : transfer_succeeds user role moved = true).
    { unfold transfer_succeeds. apply forallb_forall. intros r Hr.
      now rewrite (K r Hr). }
    assert (E : makeOwnerOfAllWorkflows this user role moved
                = (inr (mkUpdateResult 0), moved)).
    { rewrite makeOwnerOfAllWorkflows_run, T.
      rewrite (filter_none _ _ K), (transferred_fixed user role _ K).
      f_equal. }
    rewrite S. fold moved. unfold result, state_after. rewrite E.
    split; [reflexivity | intros res _; reflexivity].
  - rewrite S. split; [exact S|]. intros res H. rewrite R in H. discriminate.
Qed.

(** X19: [makeOwnerOfAllWorkflows] changes no [workflowId] and no [roleId],
    and adds or removes no row; so [getSharedWorkflowIds] answers the same
    before and after. *)
Theorem makeOwnerOfAllWorkflows_keeps_workflows_and_roles
  (this : SharedWorkflowRepository) (user : User) (role : Role) (db : Database) :
  map (fun r => workflowId r)
      (sharedWorkflows (state_after (makeOwnerOfAllWorkflows this user role) db))
  = map (fun r => workflowId r) (sharedWorkflows db)
  /\ map (fun r => roleId r)
         (sharedWorkflows (state_after (makeOwnerOfAllWorkflows this user role) db))
     = map (fun r => roleId r) (sharedWorkflows db)
  /\ (forall ids,
        result (getSharedWorkflowIds ids)
               (state_after (makeOwnerOfAllWorkflows this user role) db)
        = result (getSharedWorkflowIds ids) db).
Proof.
  destruct (makeOwnerOfAllWorkflows_cases this user role db) as [[_ S] | [_ S]];
    rewrite S; [|repeat split].
  clear S. cbn [sharedWorkflows with_sharedWorkflows]. unfold transferred.
  split; [|split].
  - rewrite map_map. apply map_ext. apply transferred_workflowId.
  - rewrite map_map. apply map_ext. apply transferred_roleId.
  - intros ids. rewrite !getSharedWorkflowIds_eval.
    cbn [sharedWorkflows with_sharedWorkflows].
    induction (sharedWorkflows db) as [|r t IH]; cbn [map filter]; [reflexivity|].
    rewrite transferred_workflowId.
    destruct (mem (workflowId r) ids); cbn [map];
      now rewrite ?transferred_workflowId, IH.
Qed.

(** X20: whenever [makeOwnerOfAllWorkflows user role] returns, the user
    has access to every workflow that had a sharing at the given role. *)
Theorem makeOwnerOfAllWorkflows_grants_access (this : SharedWorkflowRepository)
  (user : User) (role : Role) (db : Database) (r : SharedWorkflow)
  (res : UpdateResult) :
  result (makeOwnerOfAllWorkflows this user role) db = inr res ->
  In r (sharedWorkflows db) ->
  roleId r = role_id role ->
  result (hasAccess (workflowId r) user)
         (state_after (makeOwnerOfAllWorkflows this user role) db) = true.
Proof.
  intros Hok Hin Hro.
  destruct (makeOwnerOfAllWorkflows_cases this user role db) as [[_ S] | [R _]];
    [|rewrite R in Hok; discriminate].
  rewrite hasAccess_eval, S. cbn [sharedWorkflows with_sharedWorkflows].
  unfold transferred. rewrite existsb_mapped.
  apply existsb_exists. exists r. split; [assumption|].
  unfold grants_access, taken_over. rewrite Hro, String.eqb_refl, andb_true_r.
  destruct (String.eqb (userId r) (user_id user)) eqn:Hu; simpl.
  - now rewrite String.eqb_refl, Hu, orb_true_r.
  - now rewrite !String.eqb_refl, orb_true_r.
Qed.

Lemma makeOwnerOfAllWorkflows_grants_access_sample :
  result (hasAccess "w1" alice) teamDb = false
  /\ result (makeOwnerOfAllWorkflows sampleRepository alice ownerRole) teamDb
     = inr (mkUpdateResult 1)
  /\ result (hasAccess (workflowId (mkShared "w1" "u2" "r-owner")) alice)
            (state_after (makeOwnerOfAllWorkflows sampleRepository alice ownerRole) teamDb)
     = true.
Proof.
  split; [reflexivity|]. split; [reflexivity|].
  apply (@makeOwnerOfAllWorkflows_grants_access sampleRepository alice ownerRole teamDb
           (mkShared "w1" "u2" "r-owner") (mkUpdateResult 1));
    [reflexivity | simpl; auto | reflexivity].
Defined.

(** X21: whenever [makeOwnerOfAllWorkflows user role] returns, another
    user who has no global [workflow:read] scope has access to a workflow
    exactly through the sharings that user had at other roles. *)
Theorem makeOwnerOfAllWorkflows_leaves_other_roles (this : SharedWorkflowRepository)
  (user : User) (role : Role) (who : User) (id : string) (db : Database)
  (res : UpdateResult) :
  result (makeOwnerOfAllWorkflows this user role) db = inr res ->
  user_id who <> user_id user ->
  hasGlobalScope who "workflow:read" = false ->
  result (hasAccess id who) (state_after (makeOwnerOfAllWorkflows this user role) db)
  = existsb (fun r => String.eqb (workflowId r) id
                      && String.eqb (userId r) (user_id who)
                      && negb (String.eqb (roleId r) (role_id role)))
            (sharedWorkflows db).
Proof.
  intros Hok Hne Hs.
  destruct (makeOwnerOfAllWorkflows_cases this user role db) as [[_ S] | [R _]];
    [|rewrite R in Hok; discriminate].
  rewrite hasAccess_eval, S. cbn [sharedWorkflows with_sharedWorkflows].
  unfold transferred. rewrite existsb_mapped.
  apply existsb_pointwise. intros r. unfold grants_access, taken_over. rewrite Hs.
  assert (N : String.eqb (user_id user) (user_id who) = false).
  { apply String.eqb_neq. congruence. }
  destruct (String.eqb (userId r) (user_id user)) eqn:Hu;
    destruct (String.eqb (roleId r) (role_id role)) eqn:Hro; simpl;
    rewrite ?N, ?andb_true_r, ?andb_false_r; try reflexivity.
  apply String.eqb_eq in Hu. rewrite Hu, N. now rewrite andb_false_r.
Qed.

Lemma makeOwnerOfAllWorkflows_leaves_other_roles_sample :
  result (makeOwnerOfAllWorkflows sampleRepository alice ownerRole) teamDb
  = inr (mkUpdateResult 1)
  /\ result (hasAccess "w1" bob)
            (state_after (makeOwnerOfAllWorkflows sampleRepository alice ownerRole) teamDb)
     = false
  /\ result (hasAccess "w1" carol)
            (state_after (makeOwnerOfAllWorkflows sampleRepository alice ownerRole) teamDb)
     = true.
Proof.
  split; [reflexivity|]. split.
  - rewrite (@makeOwnerOfAllWorkflows_leaves_other_roles sampleRepository alice ownerRole
               bob "w1" teamDb (mkUpdateResult 1));
      [reflexivity | reflexivity | discriminate | reflexivity].
  - rewrite (@makeOwnerOfAllWorkflows_leaves_other_roles sampleRepository alice ownerRole
               carol "w1" teamDb (mkUpdateResult 1));
      [reflexivity | reflexivity | discriminate | reflexivity].
Defined.

(** ** The two single lookups *)

(** X22: in a database whose sharings all have their workflow and their
    user in the tables, [findSharing] without a role restriction and
    [getSharing] with the same global scope allowed find the same sharing,
    although the first filters on the joined workflow and user and the
    second on the columns of the sharing. *)
Theorem findSharing_agrees_with_getSharing (id : string) (user : User) (scope : Scope)
  (db : Database) :
  foreign_keys_hold db = true ->
  result (findSharing id user scope None None) db
  = result (getSharing user id (AllowGlobalScope scope) (Some ["workflow"; "role"])) db.
Proof.
  intros FK. unfold result, findSharing, getSharing, findOne, rows. cbn [fst fo_where].
  f_equal.
  rewrite (filter_ext_in
             (matches SkipUndefined db (findSharing_where id user scope None))
             (matches SkipUndefined db (getSharing_where user id (AllowGlobalScope scope)))).
  - reflexivity.
  - intros r Hr. unfold foreign_keys_hold in FK. rewrite forallb_forall in FK.
    specialize (FK r Hr).
    destruct (joined_workflow db r) as [x|] eqn:Jw; [|discriminate].
    destruct (joined_user db r) as [y|] eqn:Ju; [|discriminate].
    apply joined_workflow_id in Jw as Ew. apply joined_user_id in Ju as Eu.
    rewrite findSharing_where_shape, getSharing_where_shape.
    unfold matches, matches_workflow, matches_user.
    destruct (hasGlobalScope user scope);
      cbn [w_workflowId w_userId w_roleId w_workflow w_user w_role
           holds_opt holds matches_role];
      rewrite Jw, ?Ju, Ew, ?Eu, ?andb_true_r, ?andb_true_l; reflexivity.
Qed.

Lemma findSharing_agrees_with_getSharing_sample :
  foreign_keys_hold teamDb = true
  /\ result (findSharing "w1" carol "workflow:share" None None) teamDb
     = result (getSharing carol "w1" (AllowGlobalScope "workflow:share")
                          (Some ["workflow"; "role"])) teamDb.
Proof.
  split; [reflexivity|].
  apply (findSharing_agrees_with_getSharing "w1" carol "workflow:share" teamDb).
  reflexivity.
Defined.

(** X23: whatever [getSharing] finds is a sharing of the workflow asked
    for, with all its columns; when no relations are given, the workflow
    relation is loaded and no other. *)
Theorem getSharing_finds_requested_workflow (user : User) (id : string)
  (options : GetSharingOptions) (relations : option (list string))
  (db : Database) (f : Loaded) :
  result (getSharing user id options relations) db = Some f ->
  l_workflowId f = Some id
  /\ l_userId f <> None
  /\ l_roleId f <> None
  /\ (relations = None -> l_workflow f <> None /\ l_role f = None /\ l_user f = None).
Proof.
  intros H. apply findOne_found in H. destruct H as [r [_ [Hm ->]]].
  cbn [fo_where] in Hm. rewrite getSharing_where_shape in Hm.
  assert (Hw : workflowId r = id).
  { destruct (match options with
              | AllowGlobalScope globalScope => hasGlobalScope user globalScope
              | DisallowGlobalScope => false
              end);
      rewrite matches_columns in Hm; cbn [holds_opt holds] in Hm;
      rewrite !andb_true_iff in Hm; destruct Hm as [[Hm _] _];
      now apply String.eqb_eq. }
  unfold load. cbn [l_workflowId l_userId l_roleId l_workflow l_role l_user
                    fo_select fo_relations selected].
  split; [congruence|]. split; [discriminate|]. split; [discriminate|].
  intros ->. repeat split. discriminate.
Qed.

Lemma getSharing_finds_requested_workflow_sample :
  result (getSharing bob "w1" DisallowGlobalScope None) teamDb
  = Some (mkLoaded (Some "w1") (Some "u2") (Some "r-owner") (Some (Some invoices)) None None)
  /\ l_workflowId (mkLoaded (Some "w1") (Some "u2") (Some "r-owner")
                            (Some (Some invoices)) None None) = Some "w1".
Proof.
  split; [reflexivity|].
  apply (getSharing_finds_requested_workflow bob "w1" DisallowGlobalScope None teamDb).
  reflexivity.
Defined.

(** X24: every owner sharing that [findByWorkflowIds] returns is for a
    workflow that [getSharedWorkflowIds] reports as shared, for the same
    list of ids. *)
Theorem findByWorkflowIds_within_shared_ids (ids : list string) (db : Database) :
  incl (map (fun f => l_workflowId f) (result (findByWorkflowIds ids) db))
       (result (getSharedWorkflowIds ids) db).
Proof.
  rewrite getSharedWorkflowIds_eval. intros x Hx.
  apply in_map_iff in Hx. destruct Hx as [f [<- Hf]].
  apply find_found in Hf. destruct Hf as [r [Hin [Hm ->]]].
  apply in_map_iff. exists r. split; [reflexivity|].
  apply filter_In. split; [assumption|].
  unfold matches in Hm. cbn in Hm. rewrite !andb_true_iff in Hm.
  now destruct Hm as [[[[[Hw _] _] _] _] _].
Qed.

(** ** Deletion, row by row *)

(** X25: [deleteByIds] with a user deletes exactly the rows whose
    [workflowId] is one of the given ids and whose [userId] is the user's
    id, whatever the settings of the transaction; the given ids are
    workflow ids.  The other tables are untouched. *)
Theorem deleteByIds_deletes_user_rows_of_workflows (transaction : EntityManager)
  (ids : list string) (user : User) (db : Database) :
  (forall r,
      In r (sharedWorkflows (state_after (deleteByIds transaction ids (Some user)) db)) <->
      In r (sharedWorkflows db)
      /\ ~ (In (workflowId r) ids /\ userId r = user_id user))
  /\ users (state_after (deleteByIds transaction ids (Some user)) db) = users db
  /\ roles (state_after (deleteByIds transaction ids (Some user)) db) = roles db
  /\ workflows (state_after (deleteByIds transaction ids (Some user)) db) = workflows db.
Proof.
  split; [|repeat split].
  intros r. rewrite deleteByIds_table, filter_In, negb_true_iff.
  rewrite <- not_true_iff_false, andb_true_iff, mem_In, String.eqb_eq. tauto.
Qed.

(** X26: with or without a user, [deleteByIds] keeps every row of a
    workflow that is not in the list, and adds no row. *)
Theorem deleteByIds_frame (transaction : EntityManager) (ids : list string)
  (user : option User) (db : Database) (r : SharedWorkflow) :
  ~ In (workflowId r) ids ->
  (In r (sharedWorkflows (state_after (deleteByIds transaction ids user) db)) <->
   In r (sharedWorkflows db)).
Proof.
  intros Hout. rewrite deleteByIds_table, filter_In. split; [tauto|].
  intros Hin. split; [assumption|].
  apply negb_true_iff. apply not_true_is_false. intros H.
  apply andb_true_iff in H. destruct H as [H _]. now apply mem_In in H.
Qed.

Lemma deleteByIds_frame_sample :
  In (mkShared "w2" "u1" "r-owner")
     (sharedWorkflows (state_after (deleteByIds sampleManager ["w1"] None) teamDb))
  <-> In (mkShared "w2" "u1" "r-owner") (sharedWorkflows teamDb).
Proof.
  apply (deleteByIds_frame sampleManager ["w1"] None teamDb (mkShared "w2" "u1" "r-owner")).
  simpl. intros [E | []]. discriminate.
Defined.
